(** * AECDM hybrid MCP server: session, PKCE helpers, GraphQL proxy, viewer bridge

    A shallow embedding of [mcp-aecdm-hybrid/server.ts].  The module-level
    [let] variables of the server become one record [State]; every tool handler is
    a function in a small state-and-exception monad over that record; what the
    process does to the outside world (HTTP requests, browser launches, socket
    sends, listener binds, a few stderr lines) is appended to a trace kept in the
    state; what the outside world answers (random bytes, HTTP replies, OAuth
    redirects, listener events) is an explicit argument of the function that
    awaits it. *)

From Stdlib Require Import ZArith List String Ascii Bool Lia.
From stdpp Require Import gmap strings list pretty.
Import ListNotations.

Set Warnings "-register-all".

Local Open Scope list_scope.
Local Open Scope string_scope.

(** ** JavaScript strings

    A JavaScript string is modelled by the bytes of its UTF-8 encoding, which is
    what [Buffer.from(s)], [hash.update(s)] and the wire see. *)

Module Js.

Definition quote : ascii := "034"%char.

(** [!!s] for a string: only the empty string is falsy. *)
Definition truthy_string (s : string) : bool :=
  match s with EmptyString => false | String _ _ => true end.

(** [!!v] for a variable of type [string | null] (or an optional string). *)
Definition truthy (v : option string) : bool :=
  match v with Some s => truthy_string s | None => false end.

(** [a || b] on optional strings. *)
Definition or_else (a : option string) (b : option string) : option string :=
  if truthy a then a else b.

Definition bytes (s : string) : list Z :=
  map (fun c => Z.of_N (N_of_ascii c)) (list_ascii_of_string s).

(** [s[i]]: the i-th character, [undefined] ([None]) out of range. *)
Definition char_at (s : string) (i : nat) : option ascii := String.get i s.

(** [s.replace(/c/g, d)] for a single literal character [c]. *)
Fixpoint replace_all (c d : ascii) (s : string) : string :=
  match s with
  | EmptyString => EmptyString
  | String x s' => String (if Ascii.eqb x c then d else x) (replace_all c d s')
  end.

(** [s.replace(/c+$/, "")]: the run of [c] that ends the string is removed. *)
Fixpoint strip_trailing (c : ascii) (s : string) : string :=
  match s with
  | EmptyString => EmptyString
  | String x s' =>
      match strip_trailing c s' with
      | EmptyString => if Ascii.eqb x c then EmptyString else String x EmptyString
      | r => String x r
      end
  end.

Fixpoint contains (c : ascii) (s : string) : bool :=
  match s with
  | EmptyString => false
  | String x s' => Ascii.eqb x c || contains c s'
  end.



End Js.

(** ** Base64, as [Buffer.prototype.toString("base64")] and [digest("base64")]
    produce it: the standard alphabet, padded with [=]. *)

Module Base64.

Local Open Scope Z_scope.

Definition alphabet : string :=
  "ABCDEFGHIJKLMNOPQRSTUVWXYZabcdefghijklmnopqrstuvwxyz0123456789+/".

Definition digit (v : Z) : ascii :=
  match Js.char_at alphabet (Z.to_nat (Z.land v 63)) with
  | Some c => c
  | None => "="%char
  end.

Fixpoint encode (bs : list Z) : string :=
  match bs with
  | [] => EmptyString
  | [a] =>
      String (digit (Z.shiftr a 2))
        (String (digit (Z.shiftl (Z.land a 3) 4)) "==")
  | [a; b] =>
      String (digit (Z.shiftr a 2))
        (String (digit (Z.lor (Z.shiftl (Z.land a 3) 4) (Z.shiftr b 4)))
           (String (digit (Z.shiftl (Z.land b 15) 2)) "="))
  | a :: b :: c :: rest =>
      String (digit (Z.shiftr a 2))
        (String (digit (Z.lor (Z.shiftl (Z.land a 3) 4) (Z.shiftr b 4)))
           (String (digit (Z.lor (Z.shiftl (Z.land b 15) 2) (Z.shiftr c 6)))
              (String (digit (Z.land c 63)) (encode rest))))
  end.

End Base64.

(** ** SHA-256 (FIPS 180-4), the function behind
    [crypto.createHash("sha256").update(s).digest()].  Words are 32-bit values
    held in [Z]; every addition is reduced modulo [2^32]. *)

Module Sha256.

Local Open Scope Z_scope.

Definition wrap32 (x : Z) : Z := x mod 2 ^ 32.
Definition add32 (x y : Z) : Z := wrap32 (x + y).
Definition rotr (n x : Z) : Z :=
  Z.lor (Z.shiftr x n) (wrap32 (Z.shiftl x (32 - n))).
Definition not32 (x : Z) : Z := Z.lxor x 0xffffffff.

Definition Ch (x y z : Z) : Z := Z.lxor (Z.land x y) (Z.land (not32 x) z).
Definition Maj (x y z : Z) : Z :=
  Z.lxor (Z.lxor (Z.land x y) (Z.land x z)) (Z.land y z).
Definition bsig0 (x : Z) : Z := Z.lxor (Z.lxor (rotr 2 x) (rotr 13 x)) (rotr 22 x).
Definition bsig1 (x : Z) : Z := Z.lxor (Z.lxor (rotr 6 x) (rotr 11 x)) (rotr 25 x).
Definition ssig0 (x : Z) : Z := Z.lxor (Z.lxor (rotr 7 x) (rotr 18 x)) (Z.shiftr x 3).
Definition ssig1 (x : Z) : Z := Z.lxor (Z.lxor (rotr 17 x) (rotr 19 x)) (Z.shiftr x 10).

(** The constants are given as FIPS 180-4 defines them: [K] holds the first 32
    bits of the fractional parts of the cube roots of the first 64 primes, [H0]
    those of the square roots of the first 8. *)
Definition is_prime (n : nat) : bool :=
  forallb (fun d => negb (n mod d =? 0)%nat) (seq 2 (n - 2)).

Definition primes : list Z := map Z.of_nat (List.filter is_prime (seq 2 310)).

(** The integer cube root of a number below [2^108], one bit at a time. *)
Definition cube_root (n : Z) : Z :=
  fold_left
    (fun r b => let r' := r + 2 ^ Z.of_nat b in if r' * r' * r' <=? n then r' else r)
    (List.rev (seq 0 36)) 0.

Definition K : list Z :=
  Eval vm_compute in map (fun p => wrap32 (cube_root (p * 2 ^ 96))) primes.

Definition H0 : list Z :=
  Eval vm_compute in map (fun p => wrap32 (Z.sqrt (p * 2 ^ 64))) (firstn 8 primes).

Definition be_bytes (width : nat) (x : Z) : list Z :=
  map (fun i => Z.land (Z.shiftr x (8 * Z.of_nat i)) 255) (rev (seq 0 width)).

Definition pad (msg : list Z) : list Z :=
  let l := Z.of_nat (length msg) in
  (msg ++ [0x80] ++ repeat 0 (Z.to_nat ((55 - l) mod 64)) ++ be_bytes 8 (8 * l))%list.

Fixpoint words (bs : list Z) : list Z :=
  match bs with
  | a :: b :: c :: d :: rest =>
      (Z.shiftl a 24 + Z.shiftl b 16 + Z.shiftl c 8 + d) :: words rest
  | _ => []
  end.

Definition w_at (w : list Z) (i : nat) : Z := nth i w 0.

Definition schedule (block : list Z) : list Z :=
  fold_left
    (fun w t =>
       app w [add32 (add32 (ssig1 (w_at w (t - 2))) (w_at w (t - 7)))
                   (add32 (ssig0 (w_at w (t - 15))) (w_at w (t - 16)))])
    (seq 16 48) (words block).

Definition round (v : list Z) (kw : Z * Z) : list Z :=
  match v with
  | [a; b; c; d; e; f; g; h] =>
      let t1 := add32 (add32 (add32 h (bsig1 e)) (add32 (Ch e f g) (fst kw))) (snd kw) in
      let t2 := add32 (bsig0 a) (Maj a b c) in
      [add32 t1 t2; a; b; c; add32 d t1; e; f; g]
  | _ => v
  end.

Definition compress (h : list Z) (block : list Z) : list Z :=
  let v := fold_left round (combine K (schedule block)) h in
  map (fun p => add32 (fst p) (snd p)) (combine h v).

Fixpoint blocks (n : nat) (bs : list Z) : list (list Z) :=
  match n with
  | O => []
  | S n' => firstn 64 bs :: blocks n' (skipn 64 bs)
  end.

Definition digest (msg : list Z) : list Z :=
  let p := pad msg in
  let h := fold_left compress (blocks (length p / 64) p) H0 in
  concat (map (be_bytes 4) h).

End Sha256.

(** ** PKCE helpers *)

Definition chars : string :=
  "ABCDEFGHIJKLMNOPQRSTUVWXYZabcdefghijklmnopqrstuvwxyz0123456789".

(** [chars[randomValues[i] % chars.length]]: the character selected by one
    random byte. *)
Definition verifier_char (b : Z) : option ascii :=
  Js.char_at chars (Z.to_nat (b mod Z.of_nat (String.length chars))).

(** One turn of the loop body [result += chars[randomValues[i] % chars.length]].
    Reading a Buffer past its end gives [undefined], the remainder is then [NaN],
    [chars[NaN]] is [undefined], and [+=] appends the text "undefined". *)
Definition verifier_step (randomValues : list Z) (result : string) (i : nat) : string :=
  match randomValues !! i with
  | Some b =>
      match verifier_char b with
      | Some c => result ++ String c EmptyString
      | None => result ++ "undefined"
      end
  | None => result ++ "undefined"
  end.

(** [generateCodeVerifier(length)] for a length that is a natural number, with
    the Buffer that [crypto.randomBytes(length)] returned as a second argument. *)
Definition generateCodeVerifier (length : nat) (randomValues : list Z) : string :=
  fold_left (verifier_step randomValues) (seq 0 length) EmptyString.

Definition generateCodeChallenge (verifier : string) : string :=
  let hash := Base64.encode (Sha256.digest (Js.bytes verifier)) in
  Js.strip_trailing "="
    (Js.replace_all "/" "_" (Js.replace_all "+" "-" hash)).

(** ** JSON values, [JSON.stringify], [encodeURIComponent] *)

Module Json.

(** A parsed JSON value.  Numbers are kept as integers: the server never
    computes with a number it received, it only tests it for zero.  The members
    of an [Object] are listed in JavaScript's property order, without repeated
    keys, as [JSON.parse] builds them. *)
Inductive value :=
| Null
| Bool (b : bool)
| Number (n : Z)
| Str (s : string)
| Array (items : list value)
| Object (members : list (string * value)).

(** [!!v]: [null], [false], [0] and the empty string are falsy. *)
Definition truthy (v : value) : bool :=
  match v with
  | Null => false
  | Bool b => b
  | Number n => negb (n =? 0)%Z
  | Str s => Js.truthy_string s
  | Array _ | Object _ => true
  end.

(** [!!v] when [v] may also be [undefined] ([None]). *)
Definition truthy_opt (v : option value) : bool :=
  match v with Some x => truthy x | None => false end.

Definition hex_digit (n : N) : ascii :=
  match Js.char_at "0123456789abcdef" (N.to_nat n) with
  | Some c => c
  | None => "0"%char
  end.

Definition escape_char (c : ascii) : string :=
  let n := N_of_ascii c in
  if Ascii.eqb c Js.quote then String "\" (String Js.quote EmptyString)
  else if Ascii.eqb c "\" then "\\"
  else if (n =? 8)%N then "\b"
  else if (n =? 9)%N then "\t"
  else if (n =? 10)%N then "\n"
  else if (n =? 12)%N then "\f"
  else if (n =? 13)%N then "\r"
  else if (n <? 32)%N then
    "\u00" ++ String (hex_digit (n / 16)) (String (hex_digit (n mod 16)) EmptyString)
  else String c EmptyString.

Fixpoint escape (s : string) : string :=
  match s with
  | EmptyString => EmptyString
  | String c s' => escape_char c ++ escape s'
  end.

Definition quoted (s : string) : string :=
  String Js.quote (escape s ++ String Js.quote EmptyString).

Fixpoint join (parts : list string) : string :=
  match parts with
  | [] => EmptyString
  | [p] => p
  | p :: rest => p ++ "," ++ join rest
  end.

Fixpoint stringify (v : value) : string :=
  match v with
  | Null => "null"
  | Bool true => "true"
  | Bool false => "false"
  | Number n => pretty n
  | Str s => quoted s
  | Array items => "[" ++ join (map stringify items) ++ "]"
  | Object members =>
      "{" ++ join (map (fun kv => quoted (fst kv) ++ ":" ++ stringify (snd kv)) members) ++ "}"
  end.

(** An object literal [{k1: v1, ...}]: a member whose value is [undefined]
    ([None]) is left out by [JSON.stringify]. *)
Definition obj (fields : list (string * option value)) : value :=
  Object (omap (fun kv => pair (fst kv) <$> snd kv) fields).

Definition str (s : string) : option value := Some (Str s).
Definition opt_str (s : option string) : option value := Str <$> s.
(** A member of type [string | null]: [null] is printed, not left out. *)
Definition nullable (s : option string) : option value :=
  Some (match s with Some x => Str x | None => Null end).

(** The own enumerable properties that [{...v}] copies. *)
Definition spread (v : value) : list (string * value) :=
  match v with
  | Object members => members
  | Array items => imap (fun i x => (pretty i, x)) items
  | Str s => imap (fun i c => (pretty i, Str (String c EmptyString))) (list_ascii_of_string s)
  | _ => []
  end.

(** [o[k] = v] on the member list: an existing key keeps its place. *)
Fixpoint set_member (k : string) (v : value) (members : list (string * value))
  : list (string * value) :=
  match members with
  | [] => [(k, v)]
  | (k', v') :: rest =>
      if String.eqb k' k then (k, v) :: rest else (k', v') :: set_member k v rest
  end.

End Json.

Definition unreserved (c : ascii) : bool :=
  let n := N_of_ascii c in
  ((65 <=? n) && (n <=? 90) || (97 <=? n) && (n <=? 122) || (48 <=? n) && (n <=? 57))%N
  || Js.contains c "-_.!~*'()".

Definition upper_hex (n : N) : ascii :=
  match Js.char_at "0123456789ABCDEF" (N.to_nat n) with
  | Some c => c
  | None => "0"%char
  end.

Fixpoint encodeURIComponent (s : string) : string :=
  match s with
  | EmptyString => EmptyString
  | String c s' =>
      (if unreserved c then String c EmptyString
       else String "%" (String (upper_hex (N_of_ascii c / 16))
                          (String (upper_hex (N_of_ascii c mod 16)) EmptyString)))
      ++ encodeURIComponent s'
  end.

(** ** Server state *)

(** [ws.readyState] of a WebSocket object. *)
Inductive ReadyState := CONNECTING | OPEN | CLOSING | CLOSED.

(** A thrown or rejected value: an [Error] instance with its [message], or
    anything else (for which [error instanceof Error] is false). *)
Inductive Thrown :=
| Error (message : string)
| NonError.

Inductive FetchBody :=
| JsonBody (text : string)                  (* a JSON.stringify result *)
| FormBody (params : list (string * string)). (* a URLSearchParams object *)

(** What the process does to its surroundings, in the order it does it. *)
Inductive Effect :=
| HttpListen (port : Z)      (* http.createServer(...).listen(port): the viewer page *)
| WsListen (port : Z)        (* new WebSocketServer({ port }) *)
| CallbackListen (port : Z)  (* the OAuth callback server's listen *)
| CallbackClose              (* callbackServer.close() *)
| WsSend (ws : nat) (message : string)
| OpenUrl (url : string)     (* open(url) *)
| Fetch (url : string) (headers : gmap string string) (body : FetchBody)
| ConsoleError (line : string).

(** The module-level variables of the server, the [readyState] of every socket
    object the WebSocket server has handed out (a socket is named by a number;
    [wsConnection] holds such a name, so it aliases the entry of the store), and
    the trace. *)
Record State := mkState {
  accessToken : option string;
  refreshToken : option string;
  codeVerifier : option string;
  currentElementGroupId : option string;
  currentElementGroupName : option string;
  currentFileVersionUrn : option string;
  viewerHttpServer : option Z;
  viewerWsServer : option Z;
  wsConnection : option nat;
  viewerServerRunning : bool;
  pendingMessage : option string;
  readyState : gmap nat ReadyState;
  trace : list Effect
}.

Definition initial : State :=
  mkState None None None None None None None None None false None ∅ [].

Definition set_accessToken v (st : State) : State :=
  mkState v (refreshToken st) (codeVerifier st) (currentElementGroupId st)
    (currentElementGroupName st) (currentFileVersionUrn st) (viewerHttpServer st)
    (viewerWsServer st) (wsConnection st) (viewerServerRunning st)
    (pendingMessage st) (readyState st) (trace st).
Definition set_refreshToken v (st : State) : State :=
  mkState (accessToken st) v (codeVerifier st) (currentElementGroupId st)
    (currentElementGroupName st) (currentFileVersionUrn st) (viewerHttpServer st)
    (viewerWsServer st) (wsConnection st) (viewerServerRunning st)
    (pendingMessage st) (readyState st) (trace st).
Definition set_codeVerifier v (st : State) : State :=
  mkState (accessToken st) (refreshToken st) v (currentElementGroupId st)
    (currentElementGroupName st) (currentFileVersionUrn st) (viewerHttpServer st)
    (viewerWsServer st) (wsConnection st) (viewerServerRunning st)
    (pendingMessage st) (readyState st) (trace st).
Definition set_currentElementGroupId v (st : State) : State :=
  mkState (accessToken st) (refreshToken st) (codeVerifier st) v
    (currentElementGroupName st) (currentFileVersionUrn st) (viewerHttpServer st)
    (viewerWsServer st) (wsConnection st) (viewerServerRunning st)
    (pendingMessage st) (readyState st) (trace st).
Definition set_currentElementGroupName v (st : State) : State :=
  mkState (accessToken st) (refreshToken st) (codeVerifier st)
    (currentElementGroupId st) v (currentFileVersionUrn st) (viewerHttpServer st)
    (viewerWsServer st) (wsConnection st) (viewerServerRunning st)
    (pendingMessage st) (readyState st) (trace st).
Definition set_currentFileVersionUrn v (st : State) : State :=
  mkState (accessToken st) (refreshToken st) (codeVerifier st)
    (currentElementGroupId st) (currentElementGroupName st) v (viewerHttpServer st)
    (viewerWsServer st) (wsConnection st) (viewerServerRunning st)
    (pendingMessage st) (readyState st) (trace st).
Definition set_viewerHttpServer v (st : State) : State :=
  mkState (accessToken st) (refreshToken st) (codeVerifier st)
    (currentElementGroupId st) (currentElementGroupName st)
    (currentFileVersionUrn st) v (viewerWsServer st) (wsConnection st)
    (viewerServerRunning st) (pendingMessage st) (readyState st) (trace st).
Definition set_viewerWsServer v (st : State) : State :=
  mkState (accessToken st) (refreshToken st) (codeVerifier st)
    (currentElementGroupId st) (currentElementGroupName st)
    (currentFileVersionUrn st) (viewerHttpServer st) v (wsConnection st)
    (viewerServerRunning st) (pendingMessage st) (readyState st) (trace st).
Definition set_wsConnection v (st : State) : State :=
  mkState (accessToken st) (refreshToken st) (codeVerifier st)
    (currentElementGroupId st) (currentElementGroupName st)
    (currentFileVersionUrn st) (viewerHttpServer st) (viewerWsServer st) v
    (viewerServerRunning st) (pendingMessage st) (readyState st) (trace st).
Definition set_viewerServerRunning v (st : State) : State :=
  mkState (accessToken st) (refreshToken st) (codeVerifier st)
    (currentElementGroupId st) (currentElementGroupName st)
    (currentFileVersionUrn st) (viewerHttpServer st) (viewerWsServer st)
    (wsConnection st) v (pendingMessage st) (readyState st) (trace st).
Definition set_pendingMessage v (st : State) : State :=
  mkState (accessToken st) (refreshToken st) (codeVerifier st)
    (currentElementGroupId st) (currentElementGroupName st)
    (currentFileVersionUrn st) (viewerHttpServer st) (viewerWsServer st)
    (wsConnection st) (viewerServerRunning st) v (readyState st) (trace st).
Definition set_readyState v (st : State) : State :=
  mkState (accessToken st) (refreshToken st) (codeVerifier st)
    (currentElementGroupId st) (currentElementGroupName st)
    (currentFileVersionUrn st) (viewerHttpServer st) (viewerWsServer st)
    (wsConnection st) (viewerServerRunning st) (pendingMessage st) v (trace st).
Definition set_trace v (st : State) : State :=
  mkState (accessToken st) (refreshToken st) (codeVerifier st)
    (currentElementGroupId st) (currentElementGroupName st)
    (currentFileVersionUrn st) (viewerHttpServer st) (viewerWsServer st)
    (wsConnection st) (viewerServerRunning st) (pendingMessage st)
    (readyState st) v.

Definition emit (e : Effect) (st : State) : State :=
  set_trace (trace st ++ [e])%list st.

Definition console_error (line : string) : State -> State :=
  emit (ConsoleError line).

(** ** Configuration *)

Definition CALLBACK_URL : string := "http://localhost:5001/".
Definition SCOPES : string := "data:read viewables:read".
Definition AECDM_URL : string := "https://developer.api.autodesk.com/aec/graphql".
Definition VIEWER_HTTP_PORT : Z := 8080.
Definition VIEWER_WS_PORT : Z := 8081.

(** ** The viewer bridge *)

Definition is_open (st : State) (ws : nat) : bool :=
  match readyState st !! ws with
  | Some OPEN => true
  | _ => false
  end.

Definition sendToViewer (message : string) (st : State) : State :=
  match wsConnection st with
  | Some ws =>
      if is_open st ws then emit (WsSend ws message) st
      else set_pendingMessage (Some message)
             (console_error "Viewer not connected yet, queuing message" st)
  | None =>
      set_pendingMessage (Some message)
        (console_error "Viewer not connected yet, queuing message" st)
  end.

(** The body of [viewerWsServer.on("connection", (ws) => ...)].  [ws] is the new
    socket object, which the library hands over in state [OPEN]. *)
Definition on_connection (ws : nat) (st : State) : State :=
  let st := set_readyState (<[ws := OPEN]> (readyState st)) st in
  let st := console_error "Viewer WebSocket client connected" st in
  let st := set_wsConnection (Some ws) st in
  if Js.truthy (pendingMessage st) then
    match pendingMessage st with
    | Some m => set_pendingMessage None (emit (WsSend ws m) st)
    | None => st
    end
  else st.

(** The body of [ws.on("close", ...)] for the socket [ws], which is [CLOSED] by
    the time the event is delivered. *)
Definition on_close (ws : nat) (st : State) : State :=
  let st := set_readyState (<[ws := CLOSED]> (readyState st)) st in
  let st := console_error "Viewer WebSocket client disconnected" st in
  if decide (wsConnection st = Some ws) then set_wsConnection None st else st.

(** The first, synchronous part of [startViewerServers] when the bridge is not
    running: both servers are created and told to listen, and the handlers are
    registered.  The constructors do not throw for these constant arguments, so the
    [catch] arm around them is not modelled. *)
Definition startViewerServers_begin (st : State) : State :=
  let st := set_viewerHttpServer (Some VIEWER_HTTP_PORT) st in
  let st := emit (HttpListen VIEWER_HTTP_PORT) st in
  let st := set_viewerWsServer (Some VIEWER_WS_PORT) st in
  emit (WsListen VIEWER_WS_PORT) st.

(** The callback given to [viewerHttpServer.listen]. *)
Definition on_http_listening (st : State) : State :=
  console_error "Viewer HTTP server listening on port 8080" st.

(** [viewerWsServer.on("listening", ...)]: the only assignment to
    [viewerServerRunning] in the program. *)
Definition on_ws_listening (st : State) : State :=
  set_viewerServerRunning true
    (console_error "Viewer WebSocket server listening on port 8081" st).

(** [viewerWsServer.on("error", ...)]; the rejection is the caller's outcome. *)
Definition on_ws_server_error (st : State) : State :=
  console_error "WebSocket server error:" st.

(** ** A monad for handlers: state, and completion by value or by exception *)

Inductive Completion (A : Type) :=
| Returns (a : A)
| Throws (e : Thrown).
Arguments Returns {A} a.
Arguments Throws {A} e.

Definition M (A : Type) : Type := State -> Completion A * State.

Definition ret {A} (a : A) : M A := fun st => (Returns a, st).
Definition throw {A} (e : Thrown) : M A := fun st => (Throws e, st).
Definition bind {A B} (m : M A) (k : A -> M B) : M B :=
  fun st =>
    match m st with
    | (Returns a, st') => k a st'
    | (Throws e, st') => (Throws e, st')
    end.
(** [try { m } catch (error) { h error }] *)
Definition try_catch {A} (m : M A) (h : Thrown -> M A) : M A :=
  fun st =>
    match m st with
    | (Returns a, st') => (Returns a, st')
    | (Throws e, st') => h e st'
    end.
Definition get : M State := fun st => (Returns st, st).
Definition modify (f : State -> State) : M unit := fun st => (Returns tt, f st).
(** [await p] for a promise whose settlement is given: [None] fulfils it. *)
Definition settle (rejection : option Thrown) : M unit :=
  match rejection with
  | Some e => throw e
  | None => ret tt
  end.

Notation "'let*' x ':=' m 'in' k" := (bind m (fun x => k))
  (at level 10, x name, m at level 100, k at level 200).
Notation "m '>>' k" := (bind m (fun _ => k))
  (at level 100, k at level 200, right associativity).

(** [error instanceof Error ? error.message : fallback] *)
Definition message_or (fallback : string) (e : Thrown) : string :=
  match e with
  | Error m => m
  | NonError => fallback
  end.

(** The [text] of a tool result [{ content: [{ type: "text", text }] }].
    [JSON.stringify(undefined)] is [undefined], hence the option. *)
Definition ToolResult : Type := option string.

Definition payload (fields : list (string * option Json.value)) : ToolResult :=
  Some (Json.stringify (Json.obj fields)).

Arguments payload : simpl never.
Arguments Json.stringify : simpl never.
Arguments generateCodeVerifier : simpl never.
Arguments generateCodeChallenge : simpl never.

(** ** The GraphQL proxy *)

Record Extensions := {
  correlationId : option string;
  code : option string
}.

Record GraphQLError := {
  message : string;
  extensions : option Extensions;
  path : option (list string);
  locations : option (list (Z * Z))
}.

Record GraphQLResponse := {
  response_data : option Json.value;
  response_errors : option (list GraphQLError)
}.

Record GraphQLResult := {
  data : option Json.value;
  errors : option (list GraphQLError);
  hasErrors : bool
}.

(** The outcome of [JSON.parse] (or of [response.json()]) on a text. *)
Inductive Parsed (A : Type) :=
| SyntaxError (message : string)
| Value (a : A).
Arguments SyntaxError {A} message.
Arguments Value {A} a.

Record HttpReply := {
  ok : bool;
  status : Z;
  responseText : string;
  (** [JSON.parse(responseText) as GraphQLResponse] *)
  parsed : Parsed GraphQLResponse
}.

Inductive FetchOutcome :=
| FetchRejects (e : Thrown)   (* [fetch], or the reading of the body, rejects *)
| FetchReplies (r : HttpReply).

(** [e.extensions?.correlationId] *)
Definition correlation_of (e : GraphQLError) : option string :=
  extensions e ≫= correlationId.

(** [!!(errors && errors.length > 0)] *)
Definition has_errors (errs : option (list GraphQLError)) : bool :=
  match errs with
  | Some (_ :: _) => true
  | _ => false
  end.

Definition request_headers (token : string) (region : option string)
  : gmap string string :=
  let headers : gmap string string :=
    <["Content-Type" := "application/json"]> {["Authorization" := "Bearer " ++ token]} in
  match region with
  | Some r => if Js.truthy_string r then <["region" := r]> headers else headers
  | None => headers
  end.

(** [graphqlQuery(query, variables, region)]; [o] is what the network does with
    the single request, if it is made.  The stderr diagnostics of this function
    are not recorded in the trace. *)
Definition graphqlQuery (query : string) (variables : Json.value)
    (region : option string) (o : FetchOutcome) : M GraphQLResult :=
  let* st := get in
  match accessToken st with
  | Some token =>
      if Js.truthy_string token then
        modify (emit (Fetch AECDM_URL (request_headers token region)
                        (JsonBody (Json.stringify
                           (Json.obj [("query", Json.str query);
                                      ("variables", Some variables)]))))) >>
        match o with
        | FetchRejects e => throw e
        | FetchReplies r =>
            if negb (ok r) then
              throw (Error ("API returned " ++ pretty (status r) ++ ": " ++ responseText r))
            else
              match parsed r with
              | SyntaxError m => throw (Error m)
              | Value result =>
                  ret {| data := response_data result;
                         errors := response_errors result;
                         hasErrors := has_errors (response_errors result) |}
              end
        end
      else throw (Error "Not authenticated")
  | None => throw (Error "Not authenticated")
  end.

(** [errors?.map(e => ({ message: e.message, correlationId: e.extensions?.correlationId }))] *)
Definition error_summaries (errs : option (list GraphQLError)) : option Json.value :=
  (fun l => Json.Array
     (map (fun e => Json.obj [("message", Json.str (message e));
                              ("correlationId", Json.opt_str (correlation_of e))]) l))
  <$> errs.

(** [{ ...data, _warnings: w }] *)
Definition with_warnings (d : Json.value) (w : option Json.value) : Json.value :=
  match w with
  | Some x => Json.Object (Json.set_member "_warnings" x (Json.spread d))
  | None => Json.Object (List.filter (fun kv => negb (String.eqb (fst kv) "_warnings")) (Json.spread d))
  end.

(** What the four data tools do with the proxy's result. *)
Definition reshape (result : GraphQLResult) : ToolResult :=
  if hasErrors result && Json.truthy_opt (data result) then
    match data result with
    | Some d => Some (Json.stringify (with_warnings d (error_summaries (errors result))))
    | None => None
    end
  else if hasErrors result && negb (Json.truthy_opt (data result)) then
    let first := errors result ≫= head in
    let msg := match first with
               | Some e => if Js.truthy_string (message e) then message e else "Unknown error"
               | None => "Unknown error"
               end in
    payload [("error", Json.str msg);
             ("correlationId", Json.opt_str (first ≫= correlation_of))]
  else Json.stringify <$> data result.

(** The [catch] arm shared by the four data tools. *)
Definition report_error (e : Thrown) : M ToolResult :=
  ret (payload [("error", Json.str (message_or "Unknown error" e))]).

Definition hubs_query : string := "
        query {
          hubs {
            pagination { cursor }
            results {
              id
              name
            }
          }
        }
      ".
Definition projects_query : string := "
        query GetProjects($hubId: ID!) {
          projects(hubId: $hubId) {
            pagination { cursor }
            results {
              id
              name
            }
          }
        }
      ".
Definition element_groups_query : string := "
        query GetElementGroupsByProject($projectId: ID!) {
          elementGroupsByProject(projectId: $projectId) {
            results {
              id
              name
              alternativeIdentifiers {
                fileVersionUrn
              }
            }
          }
        }
      ".
Definition elements_query : string := "
        query GetElementsByElementGroupWithFilter($elementGroupId: ID!, $filter: String!) {
          elementsByElementGroup(elementGroupId: $elementGroupId, filter: {query: $filter}) {
            results {
              id
              name
              properties {
                results {
                  name
                  value
                }
              }
            }
          }
        }
      ".

Definition get_hubs (o : FetchOutcome) : M ToolResult :=
  try_catch
    (let* result := graphqlQuery hubs_query (Json.Object []) None o in
     ret (reshape result))
    report_error.

Definition get_projects (hubId : string) (o : FetchOutcome) : M ToolResult :=
  try_catch
    (let* result :=
       graphqlQuery projects_query (Json.obj [("hubId", Json.str hubId)]) None o in
     ret (reshape result))
    report_error.

Definition get_element_groups (projectId : string) (o : FetchOutcome) : M ToolResult :=
  try_catch
    (let* result :=
       graphqlQuery element_groups_query
         (Json.obj [("projectId", Json.str projectId)]) None o in
     ret (reshape result))
    report_error.

Definition get_elements_by_category (elementGroupId category : string)
    (o : FetchOutcome) : M ToolResult :=
  try_catch
    (let* result :=
       graphqlQuery elements_query
         (Json.obj [("elementGroupId", Json.str elementGroupId);
                    ("filter", Json.str ("property.name.category==" ++ category))])
         None o in
     ret (reshape result))
    report_error.

Record QueryArgs := {
  query : string;
  variables : option string;
  region : option string
}.

(** [execute-query]; [vars] is what [JSON.parse(args.variables)] yields, read
    only when [args.variables] is a non-empty string. *)
Definition execute_query (args : QueryArgs) (vars : Parsed Json.value)
    (o : FetchOutcome) : M ToolResult :=
  try_catch
    (let* parsedVariables :=
       if Js.truthy (variables args) then
         match vars with
         | SyntaxError m => throw (Error m)
         | Value v => ret v
         end
       else ret (Json.Object []) in
     let* result := graphqlQuery (query args) parsedVariables (region args) o in
     ret (payload
            [("data", if Json.truthy_opt (data result) then data result else None);
             ("errors", if hasErrors result then error_summaries (errors result) else None)]))
    (fun e =>
       ret (payload
              [("errors",
                Some (Json.Array
                        [Json.obj [("message", Json.str (message_or "Unknown error" e))]]))])).

(** ** Authentication *)

Record TokenResponse := {
  access_token : string;
  refresh_token : string
}.

(** What reaches the OAuth callback server: one redirect with its [code] and
    [error] query parameters, or nothing before the five-minute timer fires. *)
Inductive CallbackEvent :=
| Redirect (code error : option string)
| TimerFires.

Inductive ExchangeOutcome :=
| ExchangeRejects (e : Thrown)       (* [fetch], or the reading of the body, rejects *)
| ExchangeNotOk (errorText : string) (* [!response.ok] *)
| ExchangeBody (p : Parsed TokenResponse). (* [response.json()] *)

Record AuthEnv := {
  randomValues : list Z;          (* crypto.randomBytes(64) *)
  openAuth : option Thrown;       (* the rejection of [open(authUrl)], if any *)
  callback : CallbackEvent;
  exchange : ExchangeOutcome
}.

(** [waitForOAuthCallback()]: the promise is created, and the listener bound,
    when the function is called... *)
Definition waitForOAuthCallback_listen : M unit :=
  modify (emit (CallbackListen 5001)).

(** ... and settles with the first thing that happens at the listener. *)
Definition waitForOAuthCallback_settle (ev : CallbackEvent) : M string :=
  match ev with
  | Redirect code error =>
      match error with
      | Some e =>
          if Js.truthy_string e then
            modify (emit CallbackClose) >> throw (Error ("OAuth error: " ++ e))
          else
            modify (emit CallbackClose) >>
            match code with
            | Some c => if Js.truthy_string c then ret c
                        else throw (Error "No auth code received")
            | None => throw (Error "No auth code received")
            end
      | None =>
          modify (emit CallbackClose) >>
          match code with
          | Some c => if Js.truthy_string c then ret c
                      else throw (Error "No auth code received")
          | None => throw (Error "No auth code received")
          end
      end
  | TimerFires =>
      modify (emit CallbackClose) >>
      throw (Error "OAuth timeout - no callback received")
  end.

Section Server.

(** [process.env.CLIENT_ID]; the process exits at start-up when it is unset. *)
Variable CLIENT_ID : string.

Definition exchangeCodeForToken (authCode : string) (o : ExchangeOutcome)
  : M TokenResponse :=
  let* st := get in
  modify (emit (Fetch "https://developer.api.autodesk.com/authentication/v2/token"
                  {["Content-Type" := "application/x-www-form-urlencoded"]}
                  (FormBody [("client_id", CLIENT_ID);
                             ("code_verifier", default "null" (codeVerifier st));
                             ("code", authCode);
                             ("scope", SCOPES);
                             ("grant_type", "authorization_code");
                             ("redirect_uri", CALLBACK_URL)]))) >>
  match o with
  | ExchangeRejects e => throw e
  | ExchangeNotOk errorText => throw (Error ("Token exchange failed: " ++ errorText))
  | ExchangeBody (SyntaxError m) => throw (Error m)
  | ExchangeBody (Value tokens) => ret tokens
  end.

Definition authorize_url (codeChallenge : string) : string :=
  "https://developer.api.autodesk.com/authentication/v2/authorize?" ++
  "response_type=code&client_id=" ++ CLIENT_ID ++
  "&redirect_uri=" ++ encodeURIComponent CALLBACK_URL ++
  "&scope=" ++ SCOPES ++ "&prompt=login&code_challenge=" ++ codeChallenge ++
  "&code_challenge_method=S256".

(** The body of the [try] block of [authenticate].  Each [await] ends as the
    environment says.  (A callback listener that cannot bind raises an ['error']
    event that nothing listens to, which ends the process; and what becomes of the
    callback promise after the handler has returned is not followed.) *)
Definition authenticate_flow (env : AuthEnv) : M ToolResult :=
  let verifier := generateCodeVerifier 64 (randomValues env) in
  modify (set_codeVerifier (Some verifier)) >>
  let codeChallenge := generateCodeChallenge verifier in
  let authUrl := authorize_url codeChallenge in
  waitForOAuthCallback_listen >>
  modify (emit (OpenUrl authUrl)) >>
  settle (openAuth env) >>
  let* authCode := waitForOAuthCallback_settle (callback env) in
  let* tokens := exchangeCodeForToken authCode (exchange env) in
  modify (set_accessToken (Some (access_token tokens))) >>
  modify (set_refreshToken (Some (refresh_token tokens))) >>
  modify (console_error "Authentication successful!") >>
  ret (payload [("authenticated", Some (Json.Bool true))]).

(** Its [catch] arm. *)
Definition authenticate_catch (error : Thrown) : M ToolResult :=
  modify (console_error "Authentication failed:") >>
  ret (payload [("authenticated", Some (Json.Bool false));
                ("error", Json.str (message_or "Unknown error" error))]).

Definition authenticate (env : AuthEnv) : M ToolResult :=
  let* st := get in
  if Js.truthy (accessToken st) then
    ret (payload [("authenticated", Some (Json.Bool true))])
  else try_catch (authenticate_flow env) authenticate_catch.

Definition check_auth : M ToolResult :=
  let* st := get in
  ret (payload [("authenticated", Some (Json.Bool (Js.truthy (accessToken st))))]).

Definition browse_aecdm : M ToolResult :=
  ret (payload [("action", Json.str "browse")]).

(** ** The viewer tools *)

(** How the wait for the WebSocket server ends: with its ['listening'] event or
    with its ['error'] event.  The two servers are started in the same turn and
    report on their own; the code waits for the WebSocket server only, and
    [httpCallbackRan] says whether the HTTP server's listen callback has run by
    the time of the ['listening'] event.  (An HTTP server that cannot bind raises
    an ['error'] event that nothing listens to, which ends the process; such runs
    are not part of the model.) *)
Inductive StartOutcome :=
| Listening (httpCallbackRan : bool)
| ServerError (err : Thrown).

(** [await startViewerServers()] *)
Definition startViewerServers (o : StartOutcome) : M unit :=
  let* st := get in
  if viewerServerRunning st then ret tt
  else
    modify startViewerServers_begin >>
    match o with
    | Listening httpCallbackRan =>
        (if httpCallbackRan then modify on_http_listening else ret tt) >>
        modify on_ws_listening
    | ServerError err =>
        modify on_ws_server_error >> throw err
    end.

Record RenderArgs := {
  fileVersionUrn : string;
  elementGroupId : string;
  elementGroupName : option string
}.

Record RenderEnv := {
  start : StartOutcome;
  openViewer : option Thrown   (* the rejection of [open(viewer page)], if any *)
}.

(** [Buffer.from(s).toString("base64")] made URL-safe and unpadded. *)
Definition base64url (s : string) : string :=
  Js.strip_trailing "="
    (Js.replace_all "/" "_" (Js.replace_all "+" "-" (Base64.encode (Js.bytes s)))).

Definition load_model_message (urnBase64 token : string) : string :=
  Json.stringify (Json.obj [("type", Json.str "load-model");
                            ("urn", Json.str urnBase64);
                            ("accessToken", Json.str token)]).

(** The result of a [render-model] call that went through. *)
Definition model_sent (args : RenderArgs) : ToolResult :=
  let modelName := default "Model" (Js.or_else (elementGroupName args) None) in
  payload
    [("action", Json.str "model-sent");
     ("elementGroupId", Json.str (elementGroupId args));
     ("modelName", Json.str modelName);
     ("message",
      Json.str ("Model " ++ String Js.quote modelName ++ String Js.quote
                " has been sent to the external viewer. The elementGroupId is "
                ++ String Js.quote (elementGroupId args) ++ String Js.quote
                " — use this for subsequent AECDM GraphQL queries."))].

(** The body of the [try] block of [render-model]; [token] is the access token
    and [isFirstLoad] the flag computed before the block. *)
Definition render_flow (args : RenderArgs) (token : string) (isFirstLoad : bool)
    (env : RenderEnv) : M ToolResult :=
  startViewerServers (start env) >>
  let message := load_model_message (base64url (fileVersionUrn args)) token in
  (if isFirstLoad then
     modify (set_pendingMessage (Some message)) >>
     modify (emit (OpenUrl "http://localhost:8080/")) >>
     settle (openViewer env) >>
     modify (console_error "Opened browser to viewer at http://localhost:8080/")
   else modify (sendToViewer message)) >>
  ret (model_sent args).

(** Its [catch] arm. *)
Definition render_catch (error : Thrown) : M ToolResult :=
  modify (console_error "Failed to render model:") >>
  ret (payload [("error", Json.str (message_or "Failed to open viewer" error))]).

Definition render_model (args : RenderArgs) (env : RenderEnv) : M ToolResult :=
  let* st := get in
  match accessToken st with
  | Some token =>
      if Js.truthy_string token then
        modify (set_currentElementGroupId (Some (elementGroupId args))) >>
        modify (set_currentElementGroupName (Js.or_else (elementGroupName args) None)) >>
        modify (set_currentFileVersionUrn (Some (fileVersionUrn args))) >>
        let isFirstLoad := negb (viewerServerRunning st) in
        try_catch (render_flow args token isFirstLoad env) render_catch
      else ret (payload [("error", Json.str "Not authenticated")])
  | None => ret (payload [("error", Json.str "Not authenticated")])
  end.

Definition highlight_message (externalIds : list string) : string :=
  Json.stringify (Json.obj [("type", Json.str "highlight");
                            ("externalIds", Some (Json.Array (map Json.Str externalIds)))]).

Definition viewer_not_connected : ToolResult :=
  payload [("error", Json.str "Viewer is not connected. Please render a model first.")].

Definition highlight_elements (externalIds : list string) : M ToolResult :=
  let* st := get in
  if negb (viewerServerRunning st) || negb (bool_decide (is_Some (wsConnection st))) then
    ret viewer_not_connected
  else
    modify (sendToViewer (highlight_message externalIds)) >>
    ret (payload
           [("highlighted", Some (Json.Number (Z.of_nat (length externalIds))));
            ("message",
             Json.str ("Sent " ++ pretty (length externalIds)
                       ++ " element(s) to the viewer for highlighting."))]).

Definition no_model_loaded : ToolResult :=
  payload
    [("error",
      Json.str "No model is currently loaded. Use browse-aecdm to select and load a model first.")].

(** The answer of [get-model-context] for the stored values [id], [name]
    and [urn]. *)
Definition model_context (id name urn : option string) : ToolResult :=
  payload
    [("elementGroupId", Json.nullable id);
     ("elementGroupName", Json.nullable name);
     ("fileVersionUrn", Json.nullable urn);
     ("message",
      Json.str ("Current model: "
                ++ String Js.quote (default "Unknown" (Js.or_else name None))
                ++ String Js.quote ". Use elementGroupId "
                ++ String Js.quote (default "null" id)
                ++ String Js.quote " for AECDM GraphQL queries."))].

Definition get_model_context : M ToolResult :=
  let* st := get in
  if negb (Js.truthy (currentElementGroupId st)) then ret no_model_loaded
  else
    ret (model_context (currentElementGroupId st) (currentElementGroupName st)
           (currentFileVersionUrn st)).

(** ** The process as a transition system *)

Inductive ToolCall :=
| Authenticate (env : AuthEnv)
| CheckAuth
| BrowseAecdm
| RenderModel (args : RenderArgs) (env : RenderEnv)
| HighlightElements (externalIds : list string)
| GetModelContext
| GetHubs (o : FetchOutcome)
| GetProjects (hubId : string) (o : FetchOutcome)
| GetElementGroups (projectId : string) (o : FetchOutcome)
| GetElementsByCategory (elementGroupId category : string) (o : FetchOutcome)
| ExecuteQuery (args : QueryArgs) (vars : Parsed Json.value) (o : FetchOutcome).

Definition handle (c : ToolCall) : M ToolResult :=
  match c with
  | Authenticate env => authenticate env
  | CheckAuth => check_auth
  | BrowseAecdm => browse_aecdm
  | RenderModel args env => render_model args env
  | HighlightElements externalIds => highlight_elements externalIds
  | GetModelContext => get_model_context
  | GetHubs o => get_hubs o
  | GetProjects hubId o => get_projects hubId o
  | GetElementGroups projectId o => get_element_groups projectId o
  | GetElementsByCategory elementGroupId category o =>
      get_elements_by_category elementGroupId category o
  | ExecuteQuery args vars o => execute_query args vars o
  end.

(** What can happen to the process: a tool call from the host (served to
    completion, one at a time), a browser tab connecting to the WebSocket server,
    a socket starting its closing handshake, a socket's ['close'] event. *)
Inductive Event :=
| Tool (c : ToolCall)
| Connection (ws : nat)
| Closing (ws : nat)
| Close (ws : nat).

Definition step (ev : Event) (st : State) : State :=
  match ev with
  | Tool c => snd (handle c st)
  | Connection ws =>
      (* only a listening server accepts, and every accepted socket is a new object *)
      if viewerServerRunning st && bool_decide (readyState st !! ws = None)
      then on_connection ws st else st
  | Closing ws =>
      if is_open st ws then set_readyState (<[ws := CLOSING]> (readyState st)) st else st
  | Close ws =>
      match readyState st !! ws with
      | Some OPEN | Some CLOSING => on_close ws st
      | _ => st
      end
  end.

Definition run (evs : list Event) (st : State) : State :=
  fold_left (fun s ev => step ev s) evs st.

End Server.

(** The [WsSend] entries of a trace: which socket was sent which text, in order. *)
Definition sends (t : list Effect) : list (nat * string) :=
  omap (fun e => match e with WsSend ws m => Some (ws, m) | _ => None end) t.

(** ** Definitions used to state the properties *)

(** The 256 values a random byte takes, each with the same probability. *)
Definition byte_values : list Z := map Z.of_nat (seq 0 256).

(** How many of the 256 byte values select the character [c]. *)
Definition draws (c : ascii) : nat :=
  length (List.filter (fun b => bool_decide (verifier_char b = Some c)) byte_values).

(** Every character of every verifier lies in [alphabet], and a uniform random
    byte selects each character of [alphabet] with the same probability. *)
Definition drawn_uniformly_from (alphabet : list ascii) : Prop :=
  (forall n rv i c,
     length rv = n ->
     Js.char_at (generateCodeVerifier n rv) i = Some c -> In c alphabet)
  /\ (forall c1 c2, In c1 alphabet -> In c2 alphabet -> draws c1 = draws c2).

(** RFC 4648 section 5 (base64url) without padding, written directly. *)
Module Base64Url.

Local Open Scope Z_scope.

Definition alphabet : string :=
  "ABCDEFGHIJKLMNOPQRSTUVWXYZabcdefghijklmnopqrstuvwxyz0123456789-_".

Definition digit (v : Z) : ascii :=
  match Js.char_at alphabet (Z.to_nat (Z.land v 63)) with
  | Some c => c
  | None => "A"%char
  end.

Fixpoint encode (bs : list Z) : string :=
  match bs with
  | [] => EmptyString
  | [a] =>
      String (digit (Z.shiftr a 2))
        (String (digit (Z.shiftl (Z.land a 3) 4)) EmptyString)
  | [a; b] =>
      String (digit (Z.shiftr a 2))
        (String (digit (Z.lor (Z.shiftl (Z.land a 3) 4) (Z.shiftr b 4)))
           (String (digit (Z.shiftl (Z.land b 15) 2)) EmptyString))
  | a :: b :: c :: rest =>
      String (digit (Z.shiftr a 2))
        (String (digit (Z.lor (Z.shiftl (Z.land a 3) 4) (Z.shiftr b 4)))
           (String (digit (Z.lor (Z.shiftl (Z.land b 15) 2) (Z.shiftr c 6)))
              (String (digit (Z.land c 63)) (encode rest))))
  end.

End Base64Url.

(** The socket [ws] connecting to a bridge in state [st] delivers the pending
    text [m]: it is the one text sent by the connection handler, it goes to [ws],
    and nothing stays pending. *)
Definition delivers_on_connect (st : State) (ws : nat) (m : string) : Prop :=
  sends (trace (on_connection ws st)) = (sends (trace st) ++ [(ws, m)])%list
  /\ pendingMessage (on_connection ws st) = None.



Definition is_render_model (ev : Event) : bool :=
  match ev with
  | Tool (RenderModel _ _) => true
  | _ => false
  end.


Definition not_authenticated : ToolResult :=
  payload [("error", Json.str "Not authenticated")].

Definition authenticated (b : bool) : ToolResult :=
  payload [("authenticated", Some (Json.Bool b))].


(** No [authenticate] call of the run [evs], started in [st], answers
    [{authenticated: true}]. *)
Fixpoint no_successful_authenticate (CLIENT_ID : string) (evs : list Event)
    (st : State) : Prop :=
  match evs with
  | [] => True
  | ev :: rest =>
      match ev with
      | Tool (Authenticate env) =>
          fst (authenticate CLIENT_ID env st) <> Returns (authenticated true)
      | _ => True
      end
      /\ no_successful_authenticate CLIENT_ID rest (step CLIENT_ID ev st)
  end.

(** The first failure along the chain browser, callback, exchange, read off the
    environment: what the [try] block of [authenticate] throws, if anything. *)
Definition chain_failure (env : AuthEnv) : option Thrown :=
  match openAuth env with
  | Some e => Some e
  | None =>
      match callback env with
      | TimerFires => Some (Error "OAuth timeout - no callback received")
      | Redirect code error =>
          if Js.truthy error then
            Some (Error ("OAuth error: " ++ default EmptyString error))
          else if Js.truthy code then
            match exchange env with
            | ExchangeRejects e => Some e
            | ExchangeNotOk errorText =>
                Some (Error ("Token exchange failed: " ++ errorText))
            | ExchangeBody (SyntaxError m) => Some (Error m)
            | ExchangeBody (Value _) => None
            end
          else Some (Error "No auth code received")
      end
  end.

(** The three fields of the model context are all set, or all unset. *)
Definition all_present (st : State) : Prop :=
  is_Some (currentElementGroupId st) /\ is_Some (currentElementGroupName st)
  /\ is_Some (currentFileVersionUrn st).
Definition all_absent (st : State) : Prop :=
  currentElementGroupId st = None /\ currentElementGroupName st = None
  /\ currentFileVersionUrn st = None.

(** The model context holds what the arguments [args] of [render-model] say. *)
Definition context_is (args : RenderArgs) (st : State) : Prop :=
  currentElementGroupId st = Some (elementGroupId args)
  /\ currentElementGroupName st = Js.or_else (elementGroupName args) None
  /\ currentFileVersionUrn st = Some (fileVersionUrn args).

(** The answer of [get-model-context] that reports [args]. *)
Definition reports (args : RenderArgs) : ToolResult :=
  model_context (Some (elementGroupId args)) (Js.or_else (elementGroupName args) None)
    (Some (fileVersionUrn args)).

(** The error payload [{error: msg}]. *)
Definition error_payload (msg : string) : ToolResult :=
  payload [("error", Json.str msg)].

(** ** Sample inputs *)

Definition client_id : string := "sample-client-id".



Definition hubs_request : QueryArgs :=
  {| query := "{ hubs { results { id } } }"; variables := None; region := None |}.

Definition tower : RenderArgs :=
  {| fileVersionUrn := "urn:adsk.wipprod:fs.file:vf.tower?version=2";
     elementGroupId := "eg-tower";
     elementGroupName := Some "Tower" |}.

Definition annex : RenderArgs :=
  {| fileVersionUrn := "urn:adsk.wipprod:fs.file:vf.annex?version=7";
     elementGroupId := "eg-annex";
     elementGroupName := None |}.

Definition untitled : RenderArgs :=
  {| fileVersionUrn := "urn:adsk.wipprod:fs.file:vf.annex?version=7";
     elementGroupId := EmptyString;
     elementGroupName := None |}.

Definition viewer_opens : RenderEnv := {| start := Listening true; openViewer := None |}.
Definition port_taken : RenderEnv :=
  {| start := ServerError (Error "listen EADDRINUSE: address already in use :::8081");
     openViewer := None |}.

Definition signed_in : State := set_accessToken (Some "token") initial.

(** Runs a handler symbolically: unfolds it and the monad, then splits on
    every test it makes. *)
Ltac run_handler :=
  unfold handle, authenticate, check_auth, browse_aecdm, render_model,
    highlight_elements, get_model_context, get_hubs, get_projects,
    get_element_groups, get_elements_by_category, execute_query, report_error,
    authenticate_flow, authenticate_catch, render_flow, render_catch,
    exchangeCodeForToken, waitForOAuthCallback_listen, waitForOAuthCallback_settle,
    startViewerServers, graphqlQuery, try_catch, bind, settle, get, modify, ret, throw;
  simpl;
  repeat (case_match; simplify_eq/=).

(** ** Definitions used to state the further properties *)

(** On this effect the process reaches neither the GraphQL endpoint nor the
    viewer: it binds no viewer listener, sends nothing to a socket, and makes no
    request to [AECDM_URL]. *)
Definition quiet (e : Effect) : bool :=
  match e with
  | HttpListen _ | WsListen _ | WsSend _ _ => false
  | Fetch url _ _ => negb (String.eqb url AECDM_URL)
  | _ => true
  end.

(** Nothing has been stored or started yet apart from what [authenticate]
    itself writes. *)
Definition dormant (st : State) : Prop :=
  accessToken st = None
  /\ viewerServerRunning st = false
  /\ wsConnection st = None
  /\ pendingMessage st = None
  /\ all_absent st
  /\ readyState st = ∅
  /\ forallb quiet (trace st) = true.


(** The request of one [graphqlQuery] call. *)
Definition graphql_request (token : string) (query : string) (variables : Json.value)
    (region : option string) : Effect :=
  Fetch AECDM_URL (request_headers token region)
    (JsonBody (Json.stringify (Json.obj [("query", Json.str query);
                                         ("variables", Some variables)]))).

(** The fetch outcome carried by a call of one of the four data tools. *)
Definition data_call (c : ToolCall) : option FetchOutcome :=
  match c with
  | GetHubs o | GetProjects _ o | GetElementGroups _ o | GetElementsByCategory _ _ o => Some o
  | _ => None
  end.

(** The request of [exchangeCodeForToken] for the verifier [v] and the
    authorization code [authCode]. *)
Definition token_request (CLIENT_ID v authCode : string) : Effect :=
  Fetch "https://developer.api.autodesk.com/authentication/v2/token"
    {["Content-Type" := "application/x-www-form-urlencoded"]}
    (FormBody [("client_id", CLIENT_ID);
               ("code_verifier", v);
               ("code", authCode);
               ("scope", SCOPES);
               ("grant_type", "authorization_code");
               ("redirect_uri", CALLBACK_URL)]).

(** The first three assignments of [render-model]. *)
Definition store_context (args : RenderArgs) (st : State) : State :=
  set_currentFileVersionUrn (Some (fileVersionUrn args))
    (set_currentElementGroupName (Js.or_else (elementGroupName args) None)
       (set_currentElementGroupId (Some (elementGroupId args)) st)).

(** The pages opened in the browser, and the ports bound, in order. *)
Definition opened (t : list Effect) : list string :=
  omap (fun e => match e with OpenUrl url => Some url | _ => None end) t.
Definition bound (t : list Effect) : list Z :=
  omap (fun e => match e with HttpListen p | WsListen p => Some p | _ => None end) t.

(** The answer of [highlight-elements] once it has called [sendToViewer]. *)
Definition highlighted (externalIds : list string) : ToolResult :=
  payload
    [("highlighted", Some (Json.Number (Z.of_nat (length externalIds))));
     ("message",
      Json.str ("Sent " ++ pretty (length externalIds)
                ++ " element(s) to the viewer for highlighting."))].

(** Every character of [s] satisfies [p]. *)
Definition every_char (p : ascii -> bool) (s : string) : bool :=
  forallb p (list_ascii_of_string s).

(** What holds of the viewer bridge in every state the process reaches: a pending
    message is never the empty text, and an attached socket belongs to a running
    bridge and has not been closed. *)
Definition bridge_consistent (st : State) : Prop :=
  (forall m, pendingMessage st = Some m -> m <> EmptyString)
  /\ (forall ws, wsConnection st = Some ws ->
        viewerServerRunning st = true
        /\ (readyState st !! ws = Some OPEN \/ readyState st !! ws = Some CLOSING)).

(** ** Further sample inputs *)

(** The user consents: the redirect brings a code and the exchange succeeds. *)
Definition consent : AuthEnv :=
  {| randomValues := repeat 7%Z 64;
     openAuth := None;
     callback := Redirect (Some "auth-code") None;
     exchange := ExchangeBody (Value {| access_token := "token";
                                        refresh_token := "refresh" |}) |}.

(** Nobody answers the authorization page. *)
Definition no_consent : AuthEnv :=
  {| randomValues := repeat 7%Z 64;
     openAuth := None;
     callback := TimerFires;
     exchange := ExchangeNotOk EmptyString |}.

(** A session in which the tower is shown in a connected tab. *)
Definition viewing : State :=
  on_connection 1 (snd (render_model tower viewer_opens signed_in)).

Definition bad_variables : QueryArgs :=
  {| query := "{ hubs { results { id } } }"; variables := Some "{oops"; region := None |}.

(** * Properties *)

(** ** Strings *)

Section StringFacts.

Lemma length_append (a b : string) :
  String.length (a ++ b) = String.length a + String.length b.
Proof. induction a as [|x a IH]; simpl; [reflexivity | now rewrite IH]. Qed.

Lemma char_at_lt (s : string) (i : nat) :
  i < String.length s ->
  exists c, Js.char_at s i = Some c /\ Js.contains c s = true.
Proof.
  revert i. induction s as [|x s IH]; simpl; intros i Hi; [lia|].
  destruct i as [|i].
  - exists x. split; [reflexivity|]. now rewrite Ascii.eqb_refl.
  - destruct (IH i) as (c & Hc & Hin); [lia|].
    exists c. split; [exact Hc|]. rewrite Hin. apply orb_true_r.
Qed.

Lemma char_at_append_l (a b : string) (i : nat) :
  i < String.length a -> Js.char_at (a ++ b) i = Js.char_at a i.
Proof.
  intros H. unfold Js.char_at. symmetry. now apply append_correct1.
Qed.

Lemma char_at_append_r (a b : string) :
  Js.char_at (a ++ b) (String.length a) = Js.char_at b 0.
Proof.
  unfold Js.char_at. symmetry.
  change (String.length a) with (0 + String.length a). apply append_correct2.
Qed.



Lemma strip_trailing_cons (c x : ascii) (s : string) :
  x <> c -> Js.strip_trailing c (String x s) = String x (Js.strip_trailing c s).
Proof.
  intros Hx. simpl. destruct (Js.strip_trailing c s); [|reflexivity].
  apply Ascii.eqb_neq in Hx. now rewrite Hx.
Qed.



End StringFacts.

(** ** PKCE helpers *)

Section Pkce.

Local Open Scope Z_scope.

Lemma chars_length : String.length chars = 62%nat.
Proof. reflexivity. Qed.

Lemma verifier_char_some (b : Z) :
  exists c, verifier_char b = Some c /\ Js.contains c chars = true.
Proof.
  unfold verifier_char. apply char_at_lt. rewrite chars_length.
  pose proof (Z.mod_pos_bound b 62 ltac:(lia)). simpl Z.of_nat. lia.
Qed.

Lemma generateCodeVerifier_S (n : nat) (rv : list Z) :
  generateCodeVerifier (S n) rv = verifier_step rv (generateCodeVerifier n rv) n.
Proof.
  unfold generateCodeVerifier. rewrite seq_S, fold_left_app. reflexivity.
Qed.

Lemma verifier_step_some (rv : list Z) (acc : string) (i : nat) (b : Z) :
  rv !! i = Some b ->
  exists c, verifier_char b = Some c /\ Js.contains c chars = true
            /\ verifier_step rv acc i = acc ++ String c EmptyString.
Proof.
  intros Hb. destruct (verifier_char_some b) as (c & Hc & Hin).
  exists c. unfold verifier_step. rewrite Hb, Hc. auto.
Qed.

Lemma generateCodeVerifier_length (n : nat) (rv : list Z) :
  (n <= length rv)%nat -> String.length (generateCodeVerifier n rv) = n.
Proof.
  induction n as [|n IH]; intros Hn; [reflexivity|].
  rewrite generateCodeVerifier_S.
  destruct (lookup_lt_is_Some_2 rv n ltac:(lia)) as [b Hb].
  destruct (verifier_step_some rv (generateCodeVerifier n rv) n b Hb) as (c & _ & _ & ->).
  rewrite length_append, IH by lia. simpl. lia.
Qed.

Lemma generateCodeVerifier_char (n : nat) (rv : list Z) (i : nat) (b : Z) :
  (n <= length rv)%nat -> (i < n)%nat -> rv !! i = Some b ->
  Js.char_at (generateCodeVerifier n rv) i = verifier_char b.
Proof.
  induction n as [|n IH]; intros Hn Hi Hb; [lia|].
  rewrite generateCodeVerifier_S.
  destruct (lookup_lt_is_Some_2 rv n ltac:(lia)) as [bn Hbn].
  destruct (verifier_step_some rv (generateCodeVerifier n rv) n bn Hbn)
    as (c & Hc & _ & ->).
  destruct (decide (i = n)) as [->|Hne].
  - rewrite <- (generateCodeVerifier_length n rv) at 2 by lia.
    rewrite char_at_append_r. simpl. congruence.
  - rewrite char_at_append_l by (rewrite generateCodeVerifier_length; lia).
    apply IH; [lia | lia | exact Hb].
Qed.

Lemma draws_table :
  map draws (list_ascii_of_string chars) = (repeat 5 8 ++ repeat 4 54)%nat%list.
Proof. vm_compute. reflexivity. Qed.

(** C5, as the code has it: for every length [n] (so for every [n >= 1]) and
    the [n] random bytes drawn for it, [generateCodeVerifier n] is a string of
    exactly [n] characters; its i-th character is
    [chars[randomValues[i] % 62]], a member of the 62-character alphabet
    A-Za-z0-9; and of the 256 byte values, five select each of the letters A to
    H and four select each of the other 54 characters. *)
Theorem generateCodeVerifier_shape (n : nat) (rv : list Z) :
  length rv = n ->
  String.length (generateCodeVerifier n rv) = n
  /\ (forall i, (i < n)%nat ->
        exists b c, rv !! i = Some b
                    /\ Js.char_at (generateCodeVerifier n rv) i = Some c
                    /\ Js.char_at chars (Z.to_nat (b mod 62)) = Some c
                    /\ Js.contains c chars = true)
  /\ String.length chars = 62%nat
  /\ map draws (list_ascii_of_string chars) = (repeat 5 8 ++ repeat 4 54)%nat%list.
Proof.
  intros Hlen. split; [apply generateCodeVerifier_length; lia|].
  split; [|split; [reflexivity | exact draws_table]].
  intros i Hi.
  destruct (lookup_lt_is_Some_2 rv i ltac:(lia)) as [b Hb].
  destruct (verifier_char_some b) as (c & Hc & Hin).
  exists b, c. split; [exact Hb|]. split; [|split; [exact Hc | exact Hin]].
  rewrite (generateCodeVerifier_char n rv i b); [exact Hc | lia | exact Hi | exact Hb].
Qed.

Lemma generateCodeVerifier_shape_witness :
  String.length (generateCodeVerifier 3 [0; 61; 255]) = 3%nat
  /\ generateCodeVerifier 3 [0; 61; 255] = "A9H".
Proof.
  split.
  - exact (proj1 (generateCodeVerifier_shape 3 [0; 61; 255] eq_refl)).
  - reflexivity.
Defined.

(** C5 as stated fails: no alphabet, of 64 characters or of any other size, is
    one from which the characters are drawn uniformly, because byte 0 selects
    [A], byte 61 selects [9], and [A] is selected by five byte values while [9]
    is selected by four. *)
Lemma generateCodeVerifier_not_uniform_over_64 :
  ~ exists alphabet : list ascii,
      length alphabet = 64%nat /\ drawn_uniformly_from alphabet.
Proof.
  intros (alphabet & _ & Hin & Hunif).
  assert (HA : In "A"%char alphabet).
  { apply (Hin 1%nat [0] 0%nat); reflexivity. }
  assert (H9 : In "9"%char alphabet).
  { apply (Hin 1%nat [61] 0%nat); reflexivity. }
  specialize (Hunif _ _ HA H9). vm_compute in Hunif. discriminate.
Qed.

Lemma base64_digit_url (v : Z) :
  Base64Url.digit v <> "="%char
  /\ (let d := Base64.digit v in
      let d1 := if Ascii.eqb d "+" then "-"%char else d in
      (if Ascii.eqb d1 "/" then "_"%char else d1) = Base64Url.digit v).
Proof.
  unfold Base64.digit, Base64Url.digit.
  assert (H : (Z.to_nat (Z.land v 63) < 64)%nat).
  { change 63 with (Z.ones 6). rewrite Z.land_ones by lia.
    pose proof (Z.mod_pos_bound v (2 ^ 6) ltac:(lia)). lia. }
  revert H. generalize (Z.to_nat (Z.land v 63)). intros k Hk.
  do 64 (destruct k as [|k]; [vm_compute; split; [discriminate | reflexivity]|]).
  lia.
Qed.

Lemma list_ind3 {A} (P : list A -> Prop) :
  P [] -> (forall a, P [a]) -> (forall a b, P [a; b]) ->
  (forall a b c l, P l -> P (a :: b :: c :: l)) ->
  forall l, P l.
Proof.
  intros H0 H1 H2 H3.
  fix IH 1. intros [|a [|b [|c l]]]; [exact H0 | apply H1 | apply H2 |].
  apply H3, IH.
Qed.

Lemma url_safe_digit (v : Z) (s : string) :
  Js.strip_trailing "="
    (Js.replace_all "/" "_" (Js.replace_all "+" "-" (String (Base64.digit v) s)))
  = String (Base64Url.digit v)
      (Js.strip_trailing "=" (Js.replace_all "/" "_" (Js.replace_all "+" "-" s))).
Proof.
  destruct (base64_digit_url v) as [Hne Heq]. cbn zeta in Heq.
  cbn [Js.replace_all]. rewrite Heq. now apply strip_trailing_cons.
Qed.

(** The three rewrites of [generateCodeChallenge] turn padded base64 into
    unpadded base64url. *)
Lemma url_safe_encode (bs : list Z) :
  Js.strip_trailing "="
    (Js.replace_all "/" "_" (Js.replace_all "+" "-" (Base64.encode bs)))
  = Base64Url.encode bs.
Proof.
  induction bs as [|a|a b|a b c l IH] using list_ind3.
  - reflexivity.
  - cbn [Base64.encode Base64Url.encode]. now rewrite !url_safe_digit.
  - cbn [Base64.encode Base64Url.encode]. now rewrite !url_safe_digit.
  - cbn [Base64.encode Base64Url.encode]. now rewrite !url_safe_digit, IH.
Qed.


(** The example of RFC 7636, appendix B. *)
Example generateCodeChallenge_rfc7636 :
  generateCodeChallenge "dBjftJeZ4CVP-mB92K27uhbUJU1p1r_wW1gFWFOEjXk"
  = "E9Melhoa2OwvFrEMTJguCHaoeK1t8URWbuGJSstw-cM".
Proof. vm_compute. reflexivity. Qed.

End Pkce.

(** ** The viewer bridge *)

Section ViewerBridge.

Lemma sends_snoc (t : list Effect) (e : Effect) :
  sends (t ++ [e])%list = (sends t ++ sends [e])%list.
Proof. unfold sends. apply omap_app. Qed.

Lemma sendToViewer_detached (m : string) (st : State) :
  wsConnection st = None ->
  pendingMessage (sendToViewer m st) = Some m
  /\ wsConnection (sendToViewer m st) = None
  /\ sends (trace (sendToViewer m st)) = sends (trace st).
Proof.
  intros H. unfold sendToViewer. rewrite H. simpl.
  repeat split; [exact H|]. rewrite sends_snoc. simpl. apply app_nil_r.
Qed.

Lemma on_connection_pending (ws : nat) (m : string) (st : State) :
  pendingMessage st = Some m -> m <> EmptyString ->
  delivers_on_connect st ws m /\ wsConnection (on_connection ws st) = Some ws.
Proof.
  intros Hp Hm. unfold delivers_on_connect, on_connection. simpl. rewrite Hp.
  destruct m as [|c m]; [congruence|]. simpl.
  rewrite !sends_snoc. simpl. rewrite app_nil_r. auto.
Qed.

Lemma on_connection_idle (ws : nat) (st : State) :
  pendingMessage st = None ->
  sends (trace (on_connection ws st)) = sends (trace st)
  /\ pendingMessage (on_connection ws st) = None.
Proof.
  intros Hp. unfold on_connection. simpl. rewrite Hp. simpl.
  rewrite sends_snoc. simpl. rewrite app_nil_r. auto.
Qed.




End ViewerBridge.

(** ** What each handler leaves alone *)

Section Frames.

Variable CLIENT_ID : string.

Lemma sendToViewer_accessToken m st :
  accessToken (sendToViewer m st) = accessToken st.
Proof. unfold sendToViewer. repeat case_match; simpl; congruence. Qed.

Lemma sendToViewer_running m st :
  viewerServerRunning (sendToViewer m st) = viewerServerRunning st.
Proof. unfold sendToViewer. repeat case_match; simpl; congruence. Qed.


Lemma sendToViewer_context m st :
  currentElementGroupId (sendToViewer m st) = currentElementGroupId st
  /\ currentElementGroupName (sendToViewer m st) = currentElementGroupName st
  /\ currentFileVersionUrn (sendToViewer m st) = currentFileVersionUrn st.
Proof. unfold sendToViewer. repeat case_match; auto. Qed.



Lemma handle_accessToken (c : ToolCall) (st : State) :
  (forall env, c <> Authenticate env) ->
  accessToken (snd (handle CLIENT_ID c st)) = accessToken st.
Proof.
  intros Hc.
  destruct c; try (run_handler; rewrite ?sendToViewer_accessToken; done).
  now specialize (Hc env).
Qed.

Lemma handle_running (c : ToolCall) (st : State) :
  (viewerServerRunning st = true ->
   viewerServerRunning (snd (handle CLIENT_ID c st)) = true)
  /\ (is_render_model (Tool c) = false ->
      viewerServerRunning (snd (handle CLIENT_ID c st)) = viewerServerRunning st).
Proof.
  split.
  - intros Hr. destruct c; run_handler; rewrite ?sendToViewer_running; done.
  - intros Hc. destruct c; try discriminate; run_handler;
      rewrite ?sendToViewer_running; done.
Qed.

Lemma step_running_mono (ev : Event) (st : State) :
  viewerServerRunning st = true ->
  viewerServerRunning (step CLIENT_ID ev st) = true.
Proof.
  intros Hr. destruct ev as [c|ws|ws|ws]; simpl.
  - now apply handle_running.
  - rewrite Hr. simpl. case_match; [|exact Hr].
    unfold on_connection. simpl. repeat case_match; exact Hr.
  - case_match; exact Hr.
  - unfold on_close. repeat case_match; exact Hr.
Qed.

Lemma step_running_other (ev : Event) (st : State) :
  is_render_model ev = false ->
  viewerServerRunning st = false ->
  viewerServerRunning (step CLIENT_ID ev st) = false.
Proof.
  intros Hev Hr. destruct ev as [c|ws|ws|ws]; simpl.
  - rewrite <- Hr. now apply handle_running.
  - now rewrite Hr.
  - case_match; exact Hr.
  - unfold on_close. repeat case_match; exact Hr.
Qed.

Lemma step_accessToken_event (ev : Event) (st : State) :
  (forall c, ev <> Tool c) ->
  accessToken (step CLIENT_ID ev st) = accessToken st.
Proof.
  intros Hev. destruct ev as [c|ws|ws|ws]; simpl.
  - now specialize (Hev c).
  - case_match; [|reflexivity]. unfold on_connection. simpl. repeat case_match; reflexivity.
  - case_match; reflexivity.
  - unfold on_close. repeat case_match; reflexivity.
Qed.



Lemma run_running_other (evs : list Event) (st : State) :
  forallb (fun ev => negb (is_render_model ev)) evs = true ->
  viewerServerRunning st = false ->
  viewerServerRunning (run CLIENT_ID evs st) = false.
Proof.
  revert st. induction evs as [|ev evs IH]; intros st Hevs Hr; [exact Hr|].
  simpl in Hevs. apply andb_prop in Hevs as [Hev Hrest].
  simpl. apply IH; [exact Hrest|].
  apply step_running_other; [|exact Hr]. now destruct (is_render_model ev).
Qed.

End Frames.

(** ** Starting the viewer bridge, and highlighting *)

Section ViewerTools.

Variable CLIENT_ID : string.



Lemma startViewerServers_running (o : StartOutcome) (st : State) :
  viewerServerRunning st = true -> startViewerServers o st = (Returns tt, st).
Proof. intros Hr. unfold startViewerServers, bind, get, ret. now rewrite Hr. Qed.




Lemma highlight_elements_detached (ids : list string) (st : State) :
  viewerServerRunning st = false \/ wsConnection st = None ->
  highlight_elements ids st = (Returns viewer_not_connected, st).
Proof.
  intros H. unfold highlight_elements, bind, get, ret.
  destruct H as [-> | ->]; simpl; [reflexivity|].
  now rewrite orb_true_r.
Qed.

(** C8: while the bridge is not running, or no socket is attached,
    [highlight-elements] returns the viewer-not-connected error payload; it
    returns (it does not throw) and leaves the whole state as it was, so nothing
    is queued and nothing is sent.  This is the case in every state the process
    reaches before its first [render-model] call. *)
Theorem highlight_elements_needs_viewer (ids : list string) (st : State) (evs : list Event) :
  (viewerServerRunning st = false \/ wsConnection st = None ->
   highlight_elements ids st = (Returns viewer_not_connected, st))
  /\ (forallb (fun ev => negb (is_render_model ev)) evs = true ->
      highlight_elements ids (run CLIENT_ID evs initial)
      = (Returns viewer_not_connected, run CLIENT_ID evs initial)).
Proof.
  split; [apply highlight_elements_detached|].
  intros Hevs. apply highlight_elements_detached. left.
  now apply run_running_other.
Qed.

End ViewerTools.


Lemma highlight_elements_needs_viewer_witness :
  highlight_elements ["wall-1"] initial = (Returns viewer_not_connected, initial)
  /\ highlight_elements ["wall-1"]
       (run client_id [Tool CheckAuth; Tool (HighlightElements ["w"])] initial)
     = (Returns viewer_not_connected,
        run client_id [Tool CheckAuth; Tool (HighlightElements ["w"])] initial).
Proof.
  split.
  - exact (proj1 (highlight_elements_needs_viewer client_id ["wall-1"] initial [])
             (or_introl eq_refl)).
  - exact (proj2 (highlight_elements_needs_viewer client_id ["wall-1"] initial
                    [Tool CheckAuth; Tool (HighlightElements ["w"])])
             eq_refl).
Defined.

(** ** Authentication and the GraphQL proxy *)

Section Session.

Variable CLIENT_ID : string.

Lemma graphqlQuery_unauthenticated (q : string) (v : Json.value) (r : option string)
    (o : FetchOutcome) (st : State) :
  Js.truthy (accessToken st) = false ->
  graphqlQuery q v r o st = (Throws (Error "Not authenticated"), st).
Proof.
  intros H. unfold graphqlQuery, bind, get, throw.
  destruct (accessToken st) as [token|]; [|reflexivity].
  simpl in H. now rewrite H.
Qed.

Lemma get_hubs_unauthenticated (o : FetchOutcome) (st : State) :
  Js.truthy (accessToken st) = false ->
  get_hubs o st = (Returns not_authenticated, st).
Proof.
  intros H. unfold get_hubs, try_catch, bind at 1.
  now rewrite graphqlQuery_unauthenticated.
Qed.

Lemma authenticate_keeps_unauthenticated (env : AuthEnv) (st : State) :
  accessToken st = None ->
  fst (authenticate CLIENT_ID env st) = Returns (authenticated true)
  \/ accessToken (snd (authenticate CLIENT_ID env st)) = None.
Proof.
  intros H. unfold authenticated. run_handler; auto.
Qed.

Lemma step_keeps_unauthenticated (ev : Event) (st : State) :
  match ev with
  | Tool (Authenticate env) =>
      fst (authenticate CLIENT_ID env st) <> Returns (authenticated true)
  | _ => True
  end ->
  accessToken st = None -> accessToken (step CLIENT_ID ev st) = None.
Proof.
  intros Hev Hst. destruct ev as [c|ws|ws|ws].
  - destruct c;
      try (unfold step; rewrite handle_accessToken; [exact Hst | discriminate]).
    simpl. destruct (authenticate_keeps_unauthenticated env st Hst); [contradiction | assumption].
  - rewrite step_accessToken_event; [exact Hst | discriminate].
  - rewrite step_accessToken_event; [exact Hst | discriminate].
  - rewrite step_accessToken_event; [exact Hst | discriminate].
Qed.

Lemma run_keeps_unauthenticated (evs : list Event) (st : State) :
  no_successful_authenticate CLIENT_ID evs st ->
  accessToken st = None -> accessToken (run CLIENT_ID evs st) = None.
Proof.
  revert st. induction evs as [|ev evs IH]; intros st Hevs Hst; [exact Hst|].
  destruct Hevs as [Hev Hrest]. simpl. apply IH; [exact Hrest|].
  now apply step_keeps_unauthenticated.
Qed.

(** C3: with no access token stored (none, or the empty string, which the
    code treats alike), the proxy throws the error "Not authenticated" and leaves
    the state, and with it the trace, as it was: no request is issued.
    [get-hubs] then answers [{error: "Not authenticated"}], again with nothing
    added to the trace; this is what happens in every state the process reaches
    while no [authenticate] call has succeeded. *)
Theorem proxy_requires_token (q : string) (v : Json.value) (r : option string)
    (o : FetchOutcome) (st : State) (evs : list Event) :
  (Js.truthy (accessToken st) = false ->
   graphqlQuery q v r o st = (Throws (Error "Not authenticated"), st)
   /\ get_hubs o st = (Returns not_authenticated, st))
  /\ (no_successful_authenticate CLIENT_ID evs initial ->
      get_hubs o (run CLIENT_ID evs initial)
      = (Returns not_authenticated, run CLIENT_ID evs initial)).
Proof.
  split.
  - intros H. split; [now apply graphqlQuery_unauthenticated | now apply get_hubs_unauthenticated].
  - intros Hevs. apply get_hubs_unauthenticated.
    now rewrite (run_keeps_unauthenticated evs initial Hevs eq_refl).
Qed.

Lemma authenticate_short_circuit (env : AuthEnv) (st : State) (token : string) :
  accessToken st = Some token -> token <> EmptyString ->
  authenticate CLIENT_ID env st = (Returns (authenticated true), st).
Proof.
  intros H Hne. unfold authenticate, bind, get, ret. rewrite H.
  destruct token; [congruence | reflexivity].
Qed.


Lemma authenticate_unauthenticated (env : AuthEnv) (st : State) :
  Js.truthy (accessToken st) = false ->
  authenticate CLIENT_ID env st
  = try_catch (authenticate_flow CLIENT_ID env) authenticate_catch st.
Proof. intros H. unfold authenticate, bind, get. now rewrite H. Qed.



End Session.

Lemma proxy_requires_token_witness :
  get_hubs (FetchRejects NonError) initial = (Returns not_authenticated, initial)
  /\ trace (snd (get_hubs (FetchRejects NonError)
                   (run client_id [Tool CheckAuth; Tool (GetHubs (FetchRejects NonError))]
                      initial))) = [].
Proof.
  split.
  - exact (proj2 (proj1 (proxy_requires_token client_id hubs_query (Json.Object []) None
                           (FetchRejects NonError) initial []) eq_refl)).
  - rewrite (proj2 (proxy_requires_token client_id hubs_query (Json.Object []) None
                      (FetchRejects NonError) initial
                      [Tool CheckAuth; Tool (GetHubs (FetchRejects NonError))])).
    + reflexivity.
    + simpl. auto.
Defined.


(** ** Partial GraphQL responses *)

Section PartialResponses.




End PartialResponses.



(** ** The model context *)

Section ModelContext.

Lemma render_model_context (args : RenderArgs) (env : RenderEnv) (st : State)
    (token : string) :
  accessToken st = Some token -> token <> EmptyString ->
  context_is args (snd (render_model args env st)).
Proof.
  intros Htok Hne. unfold context_is, render_model, bind at 1, get. rewrite Htok.
  destruct token; [congruence|]. simpl.
  unfold render_flow, render_catch, startViewerServers, try_catch, bind, settle,
    get, modify, ret, throw.
  simpl.
  repeat (case_match; simplify_eq/=);
    try (destruct (sendToViewer_context
                    (load_model_message (base64url (fileVersionUrn args))
                       (String a token))
                    (set_currentFileVersionUrn (Some (fileVersionUrn args))
                       (set_currentElementGroupName
                          (Js.or_else (elementGroupName args) None)
                          (set_currentElementGroupId (Some (elementGroupId args)) st))))
           as (-> & -> & ->));
    auto.
Qed.

Lemma render_model_unauthenticated (args : RenderArgs) (env : RenderEnv) (st : State) :
  Js.truthy (accessToken st) = false ->
  render_model args env st = (Returns not_authenticated, st).
Proof.
  intros H. unfold render_model, bind, get, ret.
  destruct (accessToken st) as [token|]; [|reflexivity].
  simpl in H. now rewrite H.
Qed.

Lemma model_sent_is_not_an_error (args : RenderArgs) :
  not_authenticated <> model_sent args.
Proof.
  unfold not_authenticated, model_sent, payload. intros H.
  vm_compute in H. discriminate.
Qed.

Lemma render_model_sent_token (args : RenderArgs) (env : RenderEnv) (st : State) :
  fst (render_model args env st) = Returns (model_sent args) ->
  exists token, accessToken st = Some token /\ token <> EmptyString.
Proof.
  intros H. destruct (Js.truthy (accessToken st)) eqn:Htruthy.
  - destruct (accessToken st) as [[|c token]|]; try discriminate.
    eexists. split; [reflexivity | discriminate].
  - rewrite render_model_unauthenticated in H by assumption. simpl in H.
    exfalso. apply (model_sent_is_not_an_error args). congruence.
Qed.

Lemma get_model_context_loaded (st : State) (id : string) :
  currentElementGroupId st = Some id -> id <> EmptyString ->
  get_model_context st
  = (Returns (model_context (Some id) (currentElementGroupName st)
                (currentFileVersionUrn st)), st).
Proof.
  intros Hid Hne. unfold get_model_context, bind, get, ret. rewrite Hid.
  destruct id; [congruence | reflexivity].
Qed.

Lemma get_model_context_reports (args : RenderArgs) (st : State) :
  context_is args st -> elementGroupId args <> EmptyString ->
  get_model_context st = (Returns (reports args), st).
Proof.
  intros (Hid & Hname & Hurn) Hne.
  rewrite (get_model_context_loaded st _ Hid Hne). unfold reports.
  now rewrite Hname, Hurn.
Qed.

(** C4, as the code has it.  A [render-model] call that goes through assigns
    the three fields together from its own arguments, whatever they held before:
    [elementGroupId] and [fileVersionUrn] are then both set, and
    [elementGroupName] is set when a non-empty name was given and unset
    otherwise.  So after a second call the context holds the second call's values
    only, and [get-model-context] reports exactly them (it answers for any
    non-empty [elementGroupId]). *)
Theorem render_model_overwrites_context (a1 a2 : RenderArgs) (e1 e2 : RenderEnv)
    (st : State) :
  fst (render_model a2 e2 (snd (render_model a1 e1 st))) = Returns (model_sent a2) ->
  let st2 := snd (render_model a2 e2 (snd (render_model a1 e1 st))) in
  context_is a2 st2
  /\ is_Some (currentElementGroupId st2)
  /\ is_Some (currentFileVersionUrn st2)
  /\ (is_Some (currentElementGroupName st2) <-> Js.truthy (elementGroupName a2) = true)
  /\ (elementGroupId a2 <> EmptyString ->
      get_model_context st2 = (Returns (reports a2), st2)).
Proof.
  intros Hsent st2.
  destruct (render_model_sent_token _ _ _ Hsent) as (token & Htok & Hne).
  pose proof (render_model_context a2 e2 _ token Htok Hne) as Hctx.
  fold st2 in Hctx. split; [exact Hctx|].
  destruct Hctx as (Hid & Hname & Hurn).
  split; [rewrite Hid; eauto|]. split; [rewrite Hurn; eauto|]. split.
  - rewrite Hname. unfold Js.or_else.
    destruct (Js.truthy (elementGroupName a2)) eqn:Hn.
    + split; [reflexivity|]. intros _.
      destruct (elementGroupName a2); [eauto | discriminate].
    + split; [intros [? ?]; discriminate | discriminate].
  - intros Hid2. apply get_model_context_reports; [|exact Hid2].
    repeat split; assumption.
Qed.

(** C10, as the code has it.  A [render-model] call made with an access token
    stores its arguments before it tries anything else; when a later step throws
    and the tool answers with an error payload, the stored values stay, and a
    following [get-model-context] reports the failed render's model, provided its
    [elementGroupId] is not the empty string. *)
Theorem failed_render_keeps_context (args : RenderArgs) (env : RenderEnv) (st : State)
    (token msg : string) :
  accessToken st = Some token -> token <> EmptyString ->
  fst (render_model args env st) = Returns (error_payload msg) ->
  let st' := snd (render_model args env st) in
  context_is args st'
  /\ (elementGroupId args <> EmptyString ->
      get_model_context st' = (Returns (reports args), st')).
Proof.
  intros Htok Hne _ st'.
  pose proof (render_model_context args env st token Htok Hne) as Hctx.
  split; [exact Hctx|]. intros Hid. now apply get_model_context_reports.
Qed.

End ModelContext.

Lemma render_model_overwrites_context_witness :
  context_is annex
    (snd (render_model annex viewer_opens (snd (render_model tower viewer_opens signed_in)))).
Proof.
  exact (proj1 (render_model_overwrites_context tower annex viewer_opens viewer_opens
                  signed_in eq_refl)).
Defined.

(** C4 as stated fails: after a [render-model] call without a name that went
    through, two fields are set and one is not. *)
Lemma render_without_name_mixes_fields :
  fst (render_model annex viewer_opens signed_in) = Returns (model_sent annex)
  /\ ~ (all_present (snd (render_model annex viewer_opens signed_in))
        \/ all_absent (snd (render_model annex viewer_opens signed_in))).
Proof.
  split; [reflexivity|].
  intros [(_ & [name Hname] & _) | (Hid & _ & _)]; discriminate.
Qed.

Lemma failed_render_keeps_context_witness :
  fst (render_model tower port_taken signed_in)
  = Returns (error_payload "listen EADDRINUSE: address already in use :::8081")
  /\ get_model_context (snd (render_model tower port_taken signed_in))
     = (Returns (reports tower), snd (render_model tower port_taken signed_in)).
Proof.
  split; [reflexivity|].
  exact (proj2 (failed_render_keeps_context tower port_taken signed_in "token"
                  "listen EADDRINUSE: address already in use :::8081"
                  eq_refl ltac:(discriminate) eq_refl)
           ltac:(discriminate)).
Defined.

(** C10 as stated fails for an empty [elementGroupId], which the tool's
    schema accepts: the failed render stores it, and [get-model-context], which
    tests [if (!currentElementGroupId)], answers that no model is loaded. *)
Lemma failed_render_with_empty_id_is_not_reported :
  fst (render_model untitled port_taken signed_in)
  = Returns (error_payload "listen EADDRINUSE: address already in use :::8081")
  /\ context_is untitled (snd (render_model untitled port_taken signed_in))
  /\ fst (get_model_context (snd (render_model untitled port_taken signed_in)))
     = Returns no_model_loaded
  /\ no_model_loaded <> reports untitled.
Proof.
  split; [reflexivity|]. split; [repeat split|]. split; [reflexivity|].
  intros H. vm_compute in H. discriminate.
Qed.

(** * Further properties of the server *)

(** ** The socket register of the viewer bridge *)

Section SocketRegister.

Lemma is_open_after_connection (ws : nat) (st : State) :
  is_open (on_connection ws st) ws = true.
Proof.
  unfold is_open, on_connection. simpl.
  repeat case_match; simpl in *; simplify_map_eq; congruence.
Qed.

Lemma on_connection_attaches (ws : nat) (st : State) :
  wsConnection (on_connection ws st) = Some ws.
Proof. unfold on_connection. simpl. repeat case_match; reflexivity. Qed.

Lemma sendToViewer_open (m : string) (st : State) (ws : nat) :
  wsConnection st = Some ws -> is_open st ws = true ->
  sendToViewer m st = emit (WsSend ws m) st.
Proof. intros Hws Hopen. unfold sendToViewer. now rewrite Hws, Hopen. Qed.

Lemma sendToViewer_not_open (m : string) (st : State) (ws : nat) :
  wsConnection st = Some ws -> is_open st ws = false ->
  sendToViewer m st
  = set_pendingMessage (Some m)
      (console_error "Viewer not connected yet, queuing message" st).
Proof. intros Hws Hopen. unfold sendToViewer. now rewrite Hws, Hopen. Qed.

(** [sendToViewer] either sends or queues, never both and never neither.
    With a socket attached whose [readyState] is [OPEN] the text goes to that
    socket at once and the pending message is left as it was; in every other case
    (no socket, or a socket that is connecting, closing or closed) nothing is sent
    and the text replaces the pending message. *)
Lemma sendToViewer_sends_or_queues (m : string) (st : State) :
  match wsConnection st with
  | Some ws =>
      if is_open st ws then
        sends (trace (sendToViewer m st)) = (sends (trace st) ++ [(ws, m)])%list
        /\ pendingMessage (sendToViewer m st) = pendingMessage st
      else
        sends (trace (sendToViewer m st)) = sends (trace st)
        /\ pendingMessage (sendToViewer m st) = Some m
  | None =>
      sends (trace (sendToViewer m st)) = sends (trace st)
      /\ pendingMessage (sendToViewer m st) = Some m
  end.
Proof.
  unfold sendToViewer. destruct (wsConnection st) as [ws|]; [destruct (is_open st ws)|];
    simpl; rewrite sends_snoc; simpl; rewrite ?app_nil_r; auto.
Qed.

Lemma emit_wsConnection (e : Effect) (st : State) :
  wsConnection (emit e st) = wsConnection st.
Proof. reflexivity. Qed.

Lemma emit_readyState (e : Effect) (st : State) :
  readyState (emit e st) = readyState st.
Proof. reflexivity. Qed.

Lemma emit_is_open (e : Effect) (st : State) (ws : nat) :
  is_open (emit e st) ws = is_open st ws.
Proof. reflexivity. Qed.

Lemma emit_sends (ws : nat) (m : string) (st : State) :
  sends (trace (emit (WsSend ws m) st)) = (sends (trace st) ++ [(ws, m)])%list.
Proof. unfold emit. cbn [trace set_trace]. now rewrite sends_snoc. Qed.

Lemma on_close_detaches (ws : nat) (st : State) :
  wsConnection st = Some ws -> wsConnection (on_close ws st) = None.
Proof.
  intros Hws. unfold on_close. cbv zeta. case_decide as Heq; [reflexivity|].
  exfalso. apply Heq. exact Hws.
Qed.

Lemma on_close_other (ws : nat) (st : State) :
  wsConnection st <> Some ws -> wsConnection (on_close ws st) = wsConnection st.
Proof.
  intros Hws. unfold on_close. cbv zeta. case_decide as Heq; [|reflexivity].
  exfalso. apply Hws. exact Heq.
Qed.

Lemma on_close_sends (ws : nat) (st : State) :
  sends (trace (on_close ws st)) = sends (trace st).
Proof.
  unfold on_close. cbv zeta.
  case_decide; cbn [trace set_wsConnection set_readyState console_error emit set_trace];
    rewrite sends_snoc; apply app_nil_r.
Qed.

Lemma on_close_readyState (ws : nat) (st : State) :
  readyState (on_close ws st) = <[ws := CLOSED]> (readyState st).
Proof. unfold on_close. cbv zeta. case_decide; reflexivity. Qed.

Lemma on_close_pendingMessage (ws : nat) (st : State) :
  pendingMessage (on_close ws st) = pendingMessage st.
Proof. unfold on_close. cbv zeta. case_decide; reflexivity. Qed.

Lemma is_open_on_close_other (ws ws' : nat) (st : State) :
  ws <> ws' -> is_open (on_close ws st) ws' = is_open st ws'.
Proof.
  intros Hne. unfold is_open. rewrite on_close_readyState.
  now rewrite lookup_insert_ne by exact Hne.
Qed.

(** X1: a second browser tab replaces the first as the active socket without
    the first being closed or told anything; from then on texts go to the second
    socket only, and the first socket's later ['close'] event does not detach the
    second. *)
Theorem second_connection_replaces_first (ws1 ws2 : nat) (m1 m2 : string) (st : State) :
  ws1 <> ws2 ->
  pendingMessage st = None ->
  wsConnection (on_connection ws2 (on_connection ws1 st)) = Some ws2
  /\ sends (trace (on_connection ws2 (on_connection ws1 st))) = sends (trace st)
  /\ sends (trace (sendToViewer m1 (on_connection ws2 (on_connection ws1 st))))
     = (sends (trace st) ++ [(ws2, m1)])%list
  /\ wsConnection
       (on_close ws1 (sendToViewer m1 (on_connection ws2 (on_connection ws1 st))))
     = Some ws2
  /\ sends (trace (sendToViewer m2
              (on_close ws1
                 (sendToViewer m1 (on_connection ws2 (on_connection ws1 st))))))
     = (sends (trace st) ++ [(ws2, m1); (ws2, m2)])%list.
Proof.
  intros Hne Hp.
  destruct (on_connection_idle ws1 st Hp) as [Hs1 Hp1].
  destruct (on_connection_idle ws2 _ Hp1) as [Hs2 Hp2].
  generalize dependent (on_connection ws1 st). intros mid Hs1 Hp1 Hs2 Hp2.
  pose proof (on_connection_attaches ws2 mid) as Hws.
  pose proof (is_open_after_connection ws2 mid) as Hopen.
  generalize dependent (on_connection ws2 mid). intros both Hs2 Hp2 Hws Hopen.
  rewrite (sendToViewer_open m1 both ws2 Hws Hopen).
  assert (Hws' : wsConnection (on_close ws1 (emit (WsSend ws2 m1) both)) = Some ws2).
  { rewrite on_close_other; rewrite emit_wsConnection, Hws; [reflexivity|].
    intros Heq. injection Heq as Heq. now apply Hne. }
  assert (Hopen' : is_open (on_close ws1 (emit (WsSend ws2 m1) both)) ws2 = true).
  { rewrite is_open_on_close_other by exact Hne. now rewrite emit_is_open. }
  rewrite (sendToViewer_open m2 _ ws2 Hws' Hopen').
  rewrite !emit_sends, on_close_sends, emit_sends, Hs2, Hs1, <- app_assoc.
  repeat split; assumption || reflexivity.
Qed.

(** X2: when the active socket closes the register is emptied, so the next
    text is queued instead of being sent to the dead socket, and the tab that
    connects next is sent that text, once. *)
Theorem close_then_send_waits_for_reconnect (ws ws' : nat) (m : string) (st : State) :
  wsConnection st = Some ws ->
  m <> EmptyString ->
  let closed := on_close ws st in
  let queued := sendToViewer m closed in
  wsConnection closed = None
  /\ sends (trace queued) = sends (trace st)
  /\ pendingMessage queued = Some m
  /\ sends (trace (on_connection ws' queued)) = (sends (trace st) ++ [(ws', m)])%list
  /\ pendingMessage (on_connection ws' queued) = None.
Proof.
  intros Hws Hm. cbv zeta.
  pose proof (on_close_detaches ws st Hws) as Hclosed.
  pose proof (on_close_sends ws st) as Htr.
  destruct (sendToViewer_detached m _ Hclosed) as (Hp & _ & Hs).
  destruct (on_connection_pending ws' m _ Hp Hm) as [[Hsent Hclear] _].
  split; [exact Hclosed|]. split; [congruence|]. split; [exact Hp|].
  split; [rewrite Hsent; congruence | exact Hclear].
Qed.

End SocketRegister.

Lemma second_connection_replaces_first_witness :
  sends (trace (sendToViewer "b"
                  (on_close 1 (sendToViewer "a" (on_connection 2 (on_connection 1 initial))))))
  = [(2, "a"); (2, "b")].
Proof.
  exact (proj2 (proj2 (proj2 (proj2
    (second_connection_replaces_first 1 2 "a" "b" initial ltac:(discriminate) eq_refl))))).
Defined.

Lemma close_then_send_waits_for_reconnect_witness :
  sends (trace (on_connection 2
                  (sendToViewer "a" (on_close 1 (on_connection 1 initial)))))
  = [(2, "a")].
Proof.
  exact (proj1 (proj2 (proj2 (proj2
    (close_then_send_waits_for_reconnect 1 2 "a" (on_connection 1 initial)
       eq_refl ltac:(discriminate)))))).
Defined.

(** ** What the tools keep *)

Section ToolInvariants.

Variable CLIENT_ID : string.


Lemma forallb_snoc {A} (f : A -> bool) (l : list A) (x : A) :
  forallb f (l ++ [x])%list = forallb f l && f x.
Proof. rewrite forallb_app. simpl. now rewrite andb_true_r. Qed.

Lemma authenticate_dormant (env : AuthEnv) (st : State) :
  dormant st ->
  fst (authenticate CLIENT_ID env st) <> Returns (authenticated true) ->
  dormant (snd (authenticate CLIENT_ID env st)).
Proof.
  intros (Htok & Hrun & Hws & Hpend & (Hid & Hname & Hurn) & Hready & Hquiet) Hfail.
  revert Hfail. unfold dormant, all_absent, authenticated.
  run_handler; intros Hfail; try congruence;
    cbn [trace emit set_trace console_error set_codeVerifier set_accessToken
         set_refreshToken];
    rewrite ?forallb_snoc, ?Hquiet; repeat split; auto.
Qed.

Lemma handle_dormant (c : ToolCall) (st : State) :
  dormant st ->
  (forall env, c <> Authenticate env) ->
  snd (handle CLIENT_ID c st) = st.
Proof.
  intros (Htok & Hrun & Hws & Hpend & _) Hc.
  destruct c; try (now specialize (Hc env)); unfold handle.
  - reflexivity.
  - reflexivity.
  - rewrite render_model_unauthenticated; [reflexivity | now rewrite Htok].
  - rewrite highlight_elements_detached; [reflexivity | now left].
  - run_handler; congruence.
  - run_handler; congruence.
  - run_handler; congruence.
  - run_handler; congruence.
  - run_handler; congruence.
  - run_handler; congruence.
Qed.

Lemma step_dormant (ev : Event) (st : State) :
  dormant st ->
  match ev with
  | Tool (Authenticate env) =>
      fst (authenticate CLIENT_ID env st) <> Returns (authenticated true)
  | _ => True
  end ->
  dormant (step CLIENT_ID ev st).
Proof.
  intros Hd Hev. destruct ev as [c|ws|ws|ws].
  - destruct c; try (unfold step; rewrite handle_dormant; [exact Hd | exact Hd | discriminate]).
    now apply authenticate_dormant.
  - destruct Hd as (? & Hrun & ?). unfold step. now rewrite Hrun.
  - destruct Hd as (? & ? & ? & ? & ? & Hready & ?). unfold step, is_open.
    now rewrite Hready, lookup_empty.
  - destruct Hd as (? & ? & ? & ? & ? & Hready & ?). unfold step.
    now rewrite Hready, lookup_empty.
Qed.

(** X4: until an [authenticate] call has answered [{authenticated: true}], the
    process touches neither the GraphQL API nor the viewer: no request goes to the
    GraphQL endpoint, no viewer listener is bound, no socket is attached or sent
    anything, nothing is queued, and no model context is stored, whatever tools are
    called in the meantime. *)
Theorem nothing_happens_before_authentication (evs : list Event) :
  no_successful_authenticate CLIENT_ID evs initial ->
  dormant (run CLIENT_ID evs initial).
Proof.
  assert (Hgen : forall st, dormant st ->
            no_successful_authenticate CLIENT_ID evs st ->
            dormant (run CLIENT_ID evs st)).
  { induction evs as [|ev evs IH]; intros st Hd Hevs; [exact Hd|].
    destruct Hevs as [Hev Hrest]. simpl. apply IH; [|exact Hrest].
    now apply step_dormant. }
  intros Hevs. apply Hgen; [|exact Hevs].
  unfold dormant, all_absent. simpl. repeat split; reflexivity.
Qed.

End ToolInvariants.

Section Persistence.

Variable CLIENT_ID : string.

Lemma handle_context_other (c : ToolCall) (st : State) :
  is_render_model (Tool c) = false ->
  currentElementGroupId (snd (handle CLIENT_ID c st)) = currentElementGroupId st
  /\ currentElementGroupName (snd (handle CLIENT_ID c st)) = currentElementGroupName st
  /\ currentFileVersionUrn (snd (handle CLIENT_ID c st)) = currentFileVersionUrn st.
Proof.
  intros Hc. destruct c; try discriminate; run_handler;
    try (destruct (sendToViewer_context (highlight_message externalIds) st)
           as (-> & -> & ->)); auto.
Qed.

Lemma event_context (ev : Event) (st : State) :
  (forall c, ev <> Tool c) ->
  currentElementGroupId (step CLIENT_ID ev st) = currentElementGroupId st
  /\ currentElementGroupName (step CLIENT_ID ev st) = currentElementGroupName st
  /\ currentFileVersionUrn (step CLIENT_ID ev st) = currentFileVersionUrn st.
Proof.
  intros Hev. destruct ev as [c|ws|ws|ws]; unfold step.
  - now specialize (Hev c).
  - case_match; [|auto]. unfold on_connection. cbv zeta. repeat case_match; auto.
  - case_match; auto.
  - unfold on_close. cbv zeta. repeat case_match; auto.
Qed.

Lemma step_context_other (ev : Event) (st : State) :
  is_render_model ev = false ->
  currentElementGroupId (step CLIENT_ID ev st) = currentElementGroupId st
  /\ currentElementGroupName (step CLIENT_ID ev st) = currentElementGroupName st
  /\ currentFileVersionUrn (step CLIENT_ID ev st) = currentFileVersionUrn st.
Proof.
  intros Hev. destruct ev as [c|ws|ws|ws];
    [now apply handle_context_other | | |]; apply event_context; discriminate.
Qed.

(** X5: as long as [render-model] has not been called, [get-model-context]
    answers that no model is loaded and tells the caller to browse first; no other
    tool and no socket event stores a model. *)
Theorem get_model_context_before_render (evs : list Event) :
  forallb (fun ev => negb (is_render_model ev)) evs = true ->
  get_model_context (run CLIENT_ID evs initial)
  = (Returns no_model_loaded, run CLIENT_ID evs initial).
Proof.
  intros Hevs.
  assert (Hid : currentElementGroupId (run CLIENT_ID evs initial) = None).
  { change None with (currentElementGroupId initial).
    generalize initial. revert Hevs.
    induction evs as [|ev evs IH]; intros Hevs st; [reflexivity|].
    simpl in Hevs. apply andb_prop in Hevs as [Hev Hrest]. simpl.
    rewrite (IH Hrest). apply step_context_other. now destruct (is_render_model ev). }
  unfold get_model_context, bind, get, ret. now rewrite Hid.
Qed.

Lemma render_model_keeps_model (args : RenderArgs) (env : RenderEnv) (st : State) :
  is_Some (currentElementGroupId st) /\ is_Some (currentFileVersionUrn st) ->
  is_Some (currentElementGroupId (snd (render_model args env st)))
  /\ is_Some (currentFileVersionUrn (snd (render_model args env st))).
Proof.
  intros Hst. destruct (Js.truthy (accessToken st)) eqn:Htruthy.
  - destruct (accessToken st) as [[|c token]|] eqn:Htok; try discriminate.
    destruct (render_model_context args env st (String c token) Htok ltac:(discriminate))
      as (-> & _ & ->).
    split; eauto.
  - now rewrite render_model_unauthenticated.
Qed.

Lemma step_keeps_model (ev : Event) (st : State) :
  is_Some (currentElementGroupId st) /\ is_Some (currentFileVersionUrn st) ->
  is_Some (currentElementGroupId (step CLIENT_ID ev st))
  /\ is_Some (currentFileVersionUrn (step CLIENT_ID ev st)).
Proof.
  intros Hst. destruct (is_render_model ev) eqn:Hev.
  - destruct ev as [[]| | |]; try discriminate. now apply render_model_keeps_model.
  - destruct (step_context_other ev st Hev) as (-> & _ & ->). exact Hst.
Qed.

(** X6: the model context is never cleared.  Once a [render-model] call has
    stored an [elementGroupId] and a [fileVersionUrn], both stay set through every
    later tool call and socket event, a later [render-model] replacing them and a
    failed or unauthenticated one leaving them. *)
Theorem model_context_is_never_cleared (evs : list Event) (st : State) :
  is_Some (currentElementGroupId st) /\ is_Some (currentFileVersionUrn st) ->
  is_Some (currentElementGroupId (run CLIENT_ID evs st))
  /\ is_Some (currentFileVersionUrn (run CLIENT_ID evs st)).
Proof.
  revert st. induction evs as [|ev evs IH]; intros st Hst; [exact Hst|].
  simpl. apply IH. now apply step_keeps_model.
Qed.

Lemma sendToViewer_refreshToken m st :
  refreshToken (sendToViewer m st) = refreshToken st.
Proof. unfold sendToViewer. repeat case_match; reflexivity. Qed.

Lemma handle_refreshToken (c : ToolCall) (st : State) :
  (forall env, c <> Authenticate env) ->
  refreshToken (snd (handle CLIENT_ID c st)) = refreshToken st.
Proof.
  intros Hc.
  destruct c; try (run_handler; rewrite ?sendToViewer_refreshToken; done).
  now specialize (Hc env).
Qed.

Lemma step_keeps_tokens (ev : Event) (st : State) (token : string) :
  accessToken st = Some token -> token <> EmptyString ->
  accessToken (step CLIENT_ID ev st) = accessToken st
  /\ refreshToken (step CLIENT_ID ev st) = refreshToken st.
Proof.
  intros Htok Hne. destruct ev as [c|ws|ws|ws].
  - destruct c;
      try (unfold step; rewrite handle_accessToken, handle_refreshToken;
           [split; reflexivity | discriminate | discriminate]).
    unfold step, handle.
    now rewrite (authenticate_short_circuit CLIENT_ID env st token Htok Hne).
  - split; [apply step_accessToken_event; discriminate|].
    unfold step. case_match; [|reflexivity].
    unfold on_connection. cbv zeta. repeat case_match; reflexivity.
  - unfold step. case_match; auto.
  - split; [apply step_accessToken_event; discriminate|].
    unfold step, on_close. cbv zeta. repeat case_match; reflexivity.
Qed.

(** X7: a stored token pair is final.  Once a non-empty access token is
    stored, no tool call and no event replaces or clears it or the refresh token:
    [authenticate] returns before doing anything, and nothing else writes them
    (the refresh token is never used to obtain a new access token). *)
Theorem tokens_are_never_replaced (evs : list Event) (st : State) (token : string) :
  accessToken st = Some token -> token <> EmptyString ->
  accessToken (run CLIENT_ID evs st) = Some token
  /\ refreshToken (run CLIENT_ID evs st) = refreshToken st.
Proof.
  intros Htok Hne. revert st Htok.
  induction evs as [|ev evs IH]; intros st Htok; [auto|].
  destruct (step_keeps_tokens ev st token Htok Hne) as [Ha Hr].
  simpl. rewrite <- Hr. apply IH. congruence.
Qed.

End Persistence.

(** ** The proxy and the data tools *)

Section Proxy.

Variable CLIENT_ID : string.


Lemma graphqlQuery_request (q : string) (v : Json.value) (r : option string)
    (o : FetchOutcome) (st : State) (token : string) :
  accessToken st = Some token -> token <> EmptyString ->
  snd (graphqlQuery q v r o st) = emit (graphql_request token q v r) st.
Proof.
  intros Htok Hne.
  unfold graphqlQuery, graphql_request, bind, get, modify, ret, throw. rewrite Htok.
  destruct token; [congruence|]. cbn [Js.truthy_string].
  destruct o as [e|reply]; [reflexivity|].
  destruct (ok reply); cbn [negb]; [|reflexivity].
  destruct (parsed reply); reflexivity.
Qed.


Lemma data_tool_outcome (c : ToolCall) (o : FetchOutcome) (st : State) (token : string) :
  data_call c = Some o ->
  accessToken st = Some token -> token <> EmptyString ->
  fst (handle CLIENT_ID c st)
  = match o with
    | FetchRejects e => Returns (error_payload (message_or "Unknown error" e))
    | FetchReplies reply =>
        if ok reply then
          match parsed reply with
          | SyntaxError m => Returns (error_payload m)
          | Value body =>
              Returns (reshape {| data := response_data body;
                                  errors := response_errors body;
                                  hasErrors := has_errors (response_errors body) |})
          end
        else
          Returns (error_payload ("API returned " ++ pretty (status reply) ++ ": "
                                  ++ responseText reply))
    end.
Proof.
  intros Hc Htok Hne. destruct token as [|ch token]; [congruence|].
  destruct c; try discriminate; injection Hc as ->;
    unfold handle, get_hubs, get_projects, get_element_groups, get_elements_by_category,
      report_error, error_payload, graphqlQuery, try_catch, bind, get, modify, ret, throw;
    rewrite Htok; cbn [Js.truthy_string];
    (destruct o as [e|reply]; [reflexivity|]);
    (destruct (ok reply); cbn [negb]; [|reflexivity]);
    destruct (parsed reply); reflexivity.
Qed.

(** X9: each of the four data tools turns every upstream failure into an
    error payload instead of throwing: a rejected request is reported with its
    message, a non-success status as "API returned <status>: <body>" with the body
    kept verbatim, and a body that is not JSON with the parser's message. *)
Theorem data_tools_report_upstream_failures (c : ToolCall) (o : FetchOutcome)
    (st : State) (token : string) :
  data_call c = Some o ->
  accessToken st = Some token -> token <> EmptyString ->
  match o with
  | FetchRejects e =>
      fst (handle CLIENT_ID c st) = Returns (error_payload (message_or "Unknown error" e))
  | FetchReplies reply =>
      (ok reply = false ->
       fst (handle CLIENT_ID c st)
       = Returns (error_payload ("API returned " ++ pretty (status reply) ++ ": "
                                 ++ responseText reply)))
      /\ (forall m, ok reply = true -> parsed reply = SyntaxError m ->
          fst (handle CLIENT_ID c st) = Returns (error_payload m))
  end.
Proof.
  intros Hc Htok Hne. rewrite (data_tool_outcome c o st token Hc Htok Hne).
  destruct o as [e|reply]; [reflexivity|]. split.
  - now intros ->.
  - intros m -> ->. reflexivity.
Qed.



(** X11: [execute-query] parses its [variables] text before anything else.
    When the text is not JSON the tool answers [{errors: [{message}]}] with the
    parser's message and makes no request at all; when no text, or the empty text,
    is given, the request is made with the empty object as variables. *)
Theorem execute_query_variables (args : QueryArgs) (vars : Parsed Json.value)
    (o : FetchOutcome) (st : State) :
  (forall m,
      Js.truthy (variables args) = true -> vars = SyntaxError m ->
      execute_query args vars o st
      = (Returns (payload [("errors",
                            Some (Json.Array [Json.obj [("message", Json.str m)]]))]),
         st))
  /\ (forall token,
         Js.truthy (variables args) = false ->
         accessToken st = Some token -> token <> EmptyString ->
         snd (execute_query args vars o st)
         = emit (graphql_request token (query args) (Json.Object []) (region args)) st).
Proof.
  split.
  - intros m Hv ->. unfold execute_query, try_catch, bind, throw, ret. now rewrite Hv.
  - intros token Hv Htok Hne.
    pose proof (graphqlQuery_request (query args) (Json.Object []) (region args)
                  o st token Htok Hne) as Hreq.
    unfold execute_query, try_catch, bind at 1, bind at 1. rewrite Hv. unfold ret at 1.
    destruct (graphqlQuery (query args) (Json.Object []) (region args) o st)
      as [[result|e] st'] eqn:Hq; simpl in Hreq; subst st'; reflexivity.
Qed.

End Proxy.

(** ** The authentication flow *)

Section AuthenticationFlow.

Variable CLIENT_ID : string.


Lemma authenticate_flow_with_code (env : AuthEnv) (st : State) (code : string)
    (error : option string) :
  openAuth env = None ->
  callback env = Redirect (Some code) error ->
  Js.truthy error = false -> code <> EmptyString ->
  exists rest,
    trace (snd (authenticate_flow CLIENT_ID env st))
    = (trace st
       ++ [CallbackListen 5001;
           OpenUrl (authorize_url CLIENT_ID
                      (generateCodeChallenge
                         (generateCodeVerifier 64 (randomValues env))));
           CallbackClose;
           token_request CLIENT_ID (generateCodeVerifier 64 (randomValues env)) code]
       ++ rest)%list
    /\ codeVerifier (snd (authenticate_flow CLIENT_ID env st))
       = Some (generateCodeVerifier 64 (randomValues env)).
Proof.
  intros Hopen Hcb Herr Hcode. destruct code as [|c0 code]; [congruence|].
  unfold authenticate_flow, exchangeCodeForToken, waitForOAuthCallback_listen,
    waitForOAuthCallback_settle, token_request, bind, settle, get, modify, ret, throw.
  rewrite Hopen, Hcb.
  destruct error as [[|e0 e]|]; try discriminate;
    destruct (exchange env) as [e1|t|[m|tokens]];
    cbn [Js.truthy_string fst snd trace codeVerifier emit set_trace set_codeVerifier
         set_accessToken set_refreshToken console_error default];
    rewrite <- ?app_assoc; cbn [app];
    eexists; (split; [reflexivity | reflexivity]).
Qed.

(** X13: PKCE binding.  When the browser opens and the redirect brings a code,
    [authenticate] binds the callback listener before it opens the browser, opens
    the authorization page with the challenge derived from a fresh 64-character
    verifier, closes the listener, and then sends that same verifier, with the
    received code, to the token endpoint; the verifier stays stored afterwards. *)
Theorem authenticate_binds_verifier_to_challenge (env : AuthEnv) (st : State)
    (code : string) (error : option string) :
  Js.truthy (accessToken st) = false ->
  length (randomValues env) = 64 ->
  openAuth env = None ->
  callback env = Redirect (Some code) error ->
  Js.truthy error = false -> code <> EmptyString ->
  let verifier := generateCodeVerifier 64 (randomValues env) in
  String.length verifier = 64
  /\ codeVerifier (snd (authenticate CLIENT_ID env st)) = Some verifier
  /\ exists rest,
       trace (snd (authenticate CLIENT_ID env st))
       = (trace st
          ++ [CallbackListen 5001;
              OpenUrl (authorize_url CLIENT_ID (generateCodeChallenge verifier));
              CallbackClose;
              token_request CLIENT_ID verifier code]
          ++ rest)%list.
Proof.
  intros Hno Hlen Hopen Hcb Herr Hcode. cbv zeta.
  split; [apply generateCodeVerifier_length; lia|].
  destruct (authenticate_flow_with_code env st code error Hopen Hcb Herr Hcode)
    as (rest & Htrace & Hver).
  rewrite (authenticate_unauthenticated CLIENT_ID env st Hno). unfold try_catch.
  destruct (authenticate_flow CLIENT_ID env st) as [[text|thrown] st'];
    cbn [fst snd] in *.
  - split; [exact Hver|]. now exists rest.
  - unfold authenticate_catch, bind, modify, ret.
    cbn [snd codeVerifier trace console_error emit set_trace].
    split; [exact Hver|]. rewrite Htrace, <- !app_assoc. eexists. reflexivity.
Qed.

Lemma authenticate_flow_stores_tokens (env : AuthEnv) (st : State) (tokens : TokenResponse) :
  chain_failure env = None ->
  exchange env = ExchangeBody (Value tokens) ->
  fst (authenticate_flow CLIENT_ID env st) = Returns (authenticated true)
  /\ accessToken (snd (authenticate_flow CLIENT_ID env st)) = Some (access_token tokens)
  /\ refreshToken (snd (authenticate_flow CLIENT_ID env st)) = Some (refresh_token tokens).
Proof.
  unfold chain_failure, authenticated, Js.truthy.
  destruct env as [rv [e|] [[c|] [err|]|] ex]; simpl; intros Hchain ->;
    unfold authenticate_flow, exchangeCodeForToken, waitForOAuthCallback_listen,
      waitForOAuthCallback_settle, bind, settle, get, modify, ret, throw; simpl;
    repeat (case_match; simplify_eq/=); auto; discriminate.
Qed.

(** X14: [check-auth] follows the session.  It answers
    [{authenticated: false}] in every state reached while no [authenticate] call
    has succeeded; a call whose flow goes through stores both tokens of the
    exchange, after which [check-auth] answers [{authenticated: true}] at once
    (for a non-empty access token) and a further [authenticate] returns without
    running the flow again. *)
Theorem check_auth_follows_the_session (evs : list Event) (env env' : AuthEnv)
    (tokens : TokenResponse) :
  (no_successful_authenticate CLIENT_ID evs initial ->
   check_auth (run CLIENT_ID evs initial)
   = (Returns (authenticated false), run CLIENT_ID evs initial))
  /\ (no_successful_authenticate CLIENT_ID evs initial ->
      chain_failure env = None ->
      exchange env = ExchangeBody (Value tokens) ->
      access_token tokens <> EmptyString ->
      let st' := snd (authenticate CLIENT_ID env (run CLIENT_ID evs initial)) in
      fst (authenticate CLIENT_ID env (run CLIENT_ID evs initial))
      = Returns (authenticated true)
      /\ accessToken st' = Some (access_token tokens)
      /\ refreshToken st' = Some (refresh_token tokens)
      /\ check_auth st' = (Returns (authenticated true), st')
      /\ authenticate CLIENT_ID env' st' = (Returns (authenticated true), st')).
Proof.
  split.
  - intros Hevs. unfold check_auth, bind, get, ret.
    now rewrite (run_keeps_unauthenticated CLIENT_ID evs initial Hevs eq_refl).
  - intros Hevs Hchain Hex Htok. cbv zeta.
    pose proof (run_keeps_unauthenticated CLIENT_ID evs initial Hevs eq_refl) as Hnone.
    generalize dependent (run CLIENT_ID evs initial). intros st Hnone.
    destruct (authenticate_flow_stores_tokens env st tokens Hchain Hex)
      as (Hres & Hacc & Href).
    rewrite (authenticate_unauthenticated CLIENT_ID env st) by now rewrite Hnone.
    unfold try_catch.
    destruct (authenticate_flow CLIENT_ID env st) as [[text|thrown] st'];
      cbn [fst snd] in *; [|discriminate].
    split; [exact Hres|]. split; [exact Hacc|]. split; [exact Href|]. split.
    + unfold check_auth, bind, get, ret. rewrite Hacc.
      destruct (access_token tokens); [congruence | reflexivity].
    + now apply (authenticate_short_circuit CLIENT_ID env' st' (access_token tokens)).
Qed.

End AuthenticationFlow.

(** ** The viewer tools *)

Section ViewerLoads.

Lemma stringify_object_nonempty (members : list (string * Json.value)) :
  Json.stringify (Json.Object members) <> EmptyString.
Proof. discriminate. Qed.

Lemma load_model_message_nonempty (urn token : string) :
  load_model_message urn token <> EmptyString.
Proof. apply stringify_object_nonempty. Qed.

Lemma highlight_message_nonempty (ids : list string) :
  highlight_message ids <> EmptyString.
Proof. apply stringify_object_nonempty. Qed.

Lemma opened_snoc (t : list Effect) (e : Effect) :
  opened (t ++ [e])%list = (opened t ++ opened [e])%list.
Proof. unfold opened. apply omap_app. Qed.

Lemma bound_snoc (t : list Effect) (e : Effect) :
  bound (t ++ [e])%list = (bound t ++ bound [e])%list.
Proof. unfold bound. apply omap_app. Qed.

Lemma render_model_authenticated (args : RenderArgs) (env : RenderEnv) (st : State)
    (token : string) :
  accessToken st = Some token -> token <> EmptyString ->
  render_model args env st
  = try_catch (render_flow args token (negb (viewerServerRunning st)) env) render_catch
      (store_context args st).
Proof.
  intros Htok Hne. unfold render_model, bind at 1, get. rewrite Htok.
  destruct token; [congruence|]. reflexivity.
Qed.

Lemma sendToViewer_trace (m : string) (st : State) :
  opened (trace (sendToViewer m st)) = opened (trace st)
  /\ bound (trace (sendToViewer m st)) = bound (trace st)
  /\ viewerServerRunning (sendToViewer m st) = viewerServerRunning st.
Proof.
  unfold sendToViewer.
  destruct (wsConnection st) as [ws|]; [destruct (is_open st ws)|];
    cbn [trace emit set_trace set_pendingMessage console_error viewerServerRunning];
    rewrite opened_snoc, bound_snoc; cbn; rewrite !app_nil_r; auto.
Qed.

(** The state after the first, successful start of the bridge from [s]. *)
Lemma render_flow_first_load (args : RenderArgs) (token : string) (env : RenderEnv)
    (s : State) (h : bool) :
  viewerServerRunning s = false ->
  start env = Listening h -> openViewer env = None ->
  render_flow args token true env s
  = (Returns (model_sent args),
     console_error "Opened browser to viewer at http://localhost:8080/"
       (emit (OpenUrl "http://localhost:8080/")
          (set_pendingMessage
             (Some (load_model_message (base64url (fileVersionUrn args)) token))
             (on_ws_listening
                ((if h then on_http_listening else fun x => x)
                   (startViewerServers_begin s)))))).
Proof.
  intros Hr Hs Ho.
  unfold render_flow, startViewerServers, bind, settle, get, modify, ret, throw.
  rewrite Hr, Hs, Ho. destruct h; reflexivity.
Qed.

(** X15: the first [render-model] of a session.  With a token, the bridge not
    yet running, both servers coming up and the browser opening, the call binds
    the two ports, opens the viewer page once, sends nothing yet and answers
    [model-sent]; the load-model message (URL-safe urn and the access token) is
    left pending, and the first tab that connects receives exactly that message. *)
Theorem render_model_first_load (args : RenderArgs) (env : RenderEnv) (st : State)
    (token : string) (h : bool) (ws : nat) :
  accessToken st = Some token -> token <> EmptyString ->
  viewerServerRunning st = false ->
  start env = Listening h -> openViewer env = None ->
  let message := load_model_message (base64url (fileVersionUrn args)) token in
  let st' := snd (render_model args env st) in
  fst (render_model args env st) = Returns (model_sent args)
  /\ viewerServerRunning st' = true
  /\ bound (trace st') = (bound (trace st) ++ [VIEWER_HTTP_PORT; VIEWER_WS_PORT])%list
  /\ opened (trace st') = (opened (trace st) ++ ["http://localhost:8080/"])%list
  /\ sends (trace st') = sends (trace st)
  /\ pendingMessage st' = Some message
  /\ sends (trace (on_connection ws st')) = (sends (trace st) ++ [(ws, message)])%list
  /\ pendingMessage (on_connection ws st') = None.
Proof.
  intros Htok Hne Hr Hs Ho. cbv zeta.
  rewrite (render_model_authenticated args env st token Htok Hne), Hr.
  unfold try_catch. cbn [negb].
  rewrite (render_flow_first_load args token env (store_context args st) h Hr Hs Ho).
  cbn [fst snd].
  set (message := load_model_message (base64url (fileVersionUrn args)) token).
  change (bound (trace st)) with (bound (trace (store_context args st))).
  change (opened (trace st)) with (opened (trace (store_context args st))).
  change (sends (trace st)) with (sends (trace (store_context args st))).
  generalize (store_context args st). intros s0.
  assert (Hsends : forall s,
    sends (trace (console_error "Opened browser to viewer at http://localhost:8080/"
       (emit (OpenUrl "http://localhost:8080/")
          (set_pendingMessage (Some message)
             (on_ws_listening
                ((if h then on_http_listening else fun x => x)
                   (startViewerServers_begin s)))))))
    = sends (trace s)).
  { intros s. destruct h; cbn; rewrite !sends_snoc; cbn; now rewrite !app_nil_r. }
  split; [reflexivity|]. split; [reflexivity|]. split.
  { destruct h; cbn; rewrite !bound_snoc; cbn; rewrite !app_nil_r, <- ?app_assoc;
      reflexivity. }
  split.
  { destruct h; cbn; rewrite !opened_snoc; cbn; now rewrite !app_nil_r. }
  split; [apply Hsends|]. split; [reflexivity|].
  rewrite <- (Hsends s0).
  apply on_connection_pending; [reflexivity | apply load_model_message_nonempty].
Qed.

(** X16: later [render-model] calls.  Once the bridge is running the call
    binds no port and opens no page; the load-model message goes through
    [sendToViewer], so it is sent to the attached socket when that is open and is
    queued, replacing any pending message, otherwise.  The answer is [model-sent]
    in both cases. *)
Theorem render_model_later_load (args : RenderArgs) (env : RenderEnv) (st : State)
    (token : string) :
  accessToken st = Some token -> token <> EmptyString ->
  viewerServerRunning st = true ->
  let message := load_model_message (base64url (fileVersionUrn args)) token in
  let st' := snd (render_model args env st) in
  fst (render_model args env st) = Returns (model_sent args)
  /\ bound (trace st') = bound (trace st)
  /\ opened (trace st') = opened (trace st)
  /\ match wsConnection st with
     | Some ws =>
         if is_open st ws then
           sends (trace st') = (sends (trace st) ++ [(ws, message)])%list
           /\ pendingMessage st' = pendingMessage st
         else sends (trace st') = sends (trace st) /\ pendingMessage st' = Some message
     | None => sends (trace st') = sends (trace st) /\ pendingMessage st' = Some message
     end.
Proof.
  intros Htok Hne Hr. cbv zeta.
  rewrite (render_model_authenticated args env st token Htok Hne), Hr.
  unfold try_catch, render_flow, bind, modify, ret. cbn [negb].
  rewrite startViewerServers_running by exact Hr. cbn [fst snd].
  set (message := load_model_message (base64url (fileVersionUrn args)) token).
  destruct (sendToViewer_trace message (store_context args st)) as (Hopen & Hbound & _).
  split; [reflexivity|]. split; [exact Hbound|]. split; [exact Hopen|].
  change (wsConnection st) with (wsConnection (store_context args st)).
  change (is_open st) with (is_open (store_context args st)).
  change (sends (trace st)) with (sends (trace (store_context args st))).
  change (pendingMessage st) with (pendingMessage (store_context args st)).
  generalize (store_context args st). intros s.
  unfold sendToViewer. destruct (wsConnection s) as [ws|]; [destruct (is_open s ws)|];
    cbn [trace emit set_trace set_pendingMessage console_error pendingMessage];
    rewrite sends_snoc; cbn; rewrite ?app_nil_r; auto.
Qed.

(** X17: how a first [render-model] fails.  If the WebSocket server cannot
    listen, the call answers the error payload, opens no page, queues nothing and
    leaves the bridge not running, so the next call starts it again.  If the servers
    come up but opening the browser fails, the call answers the error payload
    although the bridge is now running and the load-model message stays pending:
    a tab that connects later still receives it. *)
Theorem render_model_first_load_failures (args : RenderArgs) (env : RenderEnv)
    (st : State) (token : string) (e : Thrown) :
  accessToken st = Some token -> token <> EmptyString ->
  viewerServerRunning st = false ->
  let message := load_model_message (base64url (fileVersionUrn args)) token in
  let st' := snd (render_model args env st) in
  (start env = ServerError e ->
   fst (render_model args env st)
   = Returns (error_payload (message_or "Failed to open viewer" e))
   /\ viewerServerRunning st' = false
   /\ opened (trace st') = opened (trace st)
   /\ pendingMessage st' = pendingMessage st)
  /\ (forall h ws,
        start env = Listening h -> openViewer env = Some e ->
        fst (render_model args env st)
        = Returns (error_payload (message_or "Failed to open viewer" e))
        /\ viewerServerRunning st' = true
        /\ pendingMessage st' = Some message
        /\ sends (trace (on_connection ws st')) = (sends (trace st) ++ [(ws, message)])%list).
Proof.
  intros Htok Hne Hr. cbv zeta.
  rewrite (render_model_authenticated args env st token Htok Hne), Hr.
  unfold try_catch, render_flow, render_catch, startViewerServers, bind, settle, get,
    modify, ret, throw.
  change (viewerServerRunning (store_context args st)) with (viewerServerRunning st).
  rewrite Hr. cbn [negb].
  change (opened (trace st)) with (opened (trace (store_context args st))).
  change (sends (trace st)) with (sends (trace (store_context args st))).
  change (pendingMessage st) with (pendingMessage (store_context args st)).
  change (viewerServerRunning st) with (viewerServerRunning (store_context args st)) in Hr.
  revert Hr. generalize (store_context args st). intros s Hr.
  split.
  - intros ->. cbn [fst snd]. split; [reflexivity|]. split; [exact Hr|].
    split; [|reflexivity].
    cbn; rewrite !opened_snoc; cbn; now rewrite !app_nil_r.
  - intros h ws -> ->. cbn [fst snd].
    set (message := load_model_message (base64url (fileVersionUrn args)) token).
    split; [destruct h; reflexivity|]. split; [destruct h; reflexivity|].
    split; [destruct h; reflexivity|].
    assert (Hsends : forall final, pendingMessage final = Some message ->
              sends (trace (on_connection ws final))
              = (sends (trace final) ++ [(ws, message)])%list).
    { intros final Hp.
      apply (on_connection_pending ws message final Hp).
      apply load_model_message_nonempty. }
    rewrite Hsends by (destruct h; reflexivity).
    f_equal. destruct h; cbn; rewrite !sends_snoc; cbn; now rewrite !app_nil_r.
Qed.

(** X18: [highlight-elements] with the bridge running and a socket attached.
    The answer is the same success payload, counting the ids, whether the message
    was delivered or not: it is sent when the attached socket is open, and
    otherwise only queued, replacing whatever was pending. *)
Theorem highlight_elements_attached (ids : list string) (st : State) (ws : nat) :
  viewerServerRunning st = true -> wsConnection st = Some ws ->
  let st' := snd (highlight_elements ids st) in
  fst (highlight_elements ids st) = Returns (highlighted ids)
  /\ if is_open st ws then
       sends (trace st') = (sends (trace st) ++ [(ws, highlight_message ids)])%list
       /\ pendingMessage st' = pendingMessage st
     else
       sends (trace st') = sends (trace st)
       /\ pendingMessage st' = Some (highlight_message ids).
Proof.
  intros Hr Hws. cbv zeta.
  unfold highlight_elements, bind, get, modify, ret. rewrite Hr, Hws.
  rewrite bool_decide_eq_true_2 by eauto. cbn [negb orb fst snd].
  split; [reflexivity|].
  destruct (is_open st ws) eqn:Hopen.
  - rewrite (sendToViewer_open _ st ws Hws Hopen). split; [apply emit_sends | reflexivity].
  - rewrite (sendToViewer_not_open _ st ws Hws Hopen).
    cbn [trace emit set_trace set_pendingMessage console_error pendingMessage].
    rewrite sends_snoc. cbn. now rewrite app_nil_r.
Qed.

End ViewerLoads.

(** ** Values that are put into URLs *)

Section UrlSafety.

Lemma encodeURIComponent_unreserved (s : string) :
  every_char unreserved s = true -> encodeURIComponent s = s.
Proof.
  unfold every_char. induction s as [|c s IH]; [reflexivity|].
  cbn [list_ascii_of_string forallb encodeURIComponent].
  intros [Hc Hs]%andb_prop. rewrite Hc, IH by exact Hs. reflexivity.
Qed.

Lemma base64url_digit_unreserved (v : Z) : unreserved (Base64Url.digit v) = true.
Proof.
  unfold Base64Url.digit.
  assert (H : (Z.to_nat (Z.land v 63) < 64)%nat).
  { change 63%Z with (Z.ones 6). rewrite Z.land_ones by lia.
    pose proof (Z.mod_pos_bound v (2 ^ 6) ltac:(lia)). lia. }
  revert H. generalize (Z.to_nat (Z.land v 63)). intros k Hk.
  do 64 (destruct k as [|k]; [vm_compute; reflexivity|]).
  lia.
Qed.

Lemma base64url_encode_unreserved (bs : list Z) :
  every_char unreserved (Base64Url.encode bs) = true.
Proof.
  unfold every_char.
  induction bs as [|a|a b|a b c l IH] using list_ind3;
    cbn [Base64Url.encode list_ascii_of_string forallb];
    rewrite ?base64url_digit_unreserved, ?IH; reflexivity.
Qed.

Lemma round_length (v : list Z) (kw : Z * Z) :
  length v = 8%nat -> length (Sha256.round v kw) = 8%nat.
Proof.
  intros H. do 9 (destruct v as [|? v]; try discriminate). reflexivity.
Qed.

Lemma compress_length (h block : list Z) :
  length h = 8%nat -> length (Sha256.compress h block) = 8%nat.
Proof.
  intros H. unfold Sha256.compress. cbv zeta.
  rewrite length_map, length_combine.
  assert (Hv : forall kws v, length v = 8%nat ->
                 length (fold_left Sha256.round kws v) = 8%nat).
  { induction kws as [|kw kws IH]; intros v Hv; [exact Hv|].
    cbn [fold_left]. apply IH, round_length, Hv. }
  rewrite Hv by exact H. rewrite H. reflexivity.
Qed.

Lemma digest_length (msg : list Z) : length (Sha256.digest msg) = 32%nat.
Proof.
  unfold Sha256.digest. cbv zeta.
  assert (Hh : forall bl h, length h = 8%nat ->
                 length (fold_left Sha256.compress bl h) = 8%nat).
  { induction bl as [|b bl IH]; intros h Hh; [exact Hh|].
    cbn [fold_left]. apply IH, compress_length, Hh. }
  specialize (Hh (Sha256.blocks (length (Sha256.pad msg) / 64) (Sha256.pad msg))
                 Sha256.H0 eq_refl).
  revert Hh. generalize (fold_left Sha256.compress
    (Sha256.blocks (length (Sha256.pad msg) / 64) (Sha256.pad msg)) Sha256.H0).
  intros h Hh. do 9 (destruct h as [|? h]; try discriminate). reflexivity.
Qed.

Lemma base64url_encode_32 (bs : list Z) :
  length bs = 32%nat -> String.length (Base64Url.encode bs) = 43%nat.
Proof.
  intros H. do 33 (destruct bs as [|? bs]; try discriminate). reflexivity.
Qed.

(** X19: the code challenge is always 43 characters of the base64url alphabet,
    whatever the verifier, and [encodeURIComponent] leaves it as it is: the
    authorization URL, which inserts it without escaping, is well formed.  The same
    holds of the urn text that [render-model] sends to the viewer. *)
Theorem challenge_needs_no_escaping (verifier urn : string) :
  String.length (generateCodeChallenge verifier) = 43%nat
  /\ every_char unreserved (generateCodeChallenge verifier) = true
  /\ encodeURIComponent (generateCodeChallenge verifier) = generateCodeChallenge verifier
  /\ encodeURIComponent (base64url urn) = base64url urn.
Proof.
  unfold generateCodeChallenge, base64url. cbv zeta. rewrite !url_safe_encode.
  split; [apply base64url_encode_32, digest_length|].
  split; [apply base64url_encode_unreserved|].
  split; apply encodeURIComponent_unreserved, base64url_encode_unreserved.
Qed.

End UrlSafety.

(** ** What holds in every reachable state *)

Section Reachable.

Variable CLIENT_ID : string.

Lemma sendToViewer_bridge (m : string) (st : State) :
  wsConnection (sendToViewer m st) = wsConnection st
  /\ readyState (sendToViewer m st) = readyState st
  /\ (pendingMessage (sendToViewer m st) = pendingMessage st
      \/ pendingMessage (sendToViewer m st) = Some m).
Proof.
  unfold sendToViewer.
  destruct (wsConnection st) as [ws|] eqn:Hws; [destruct (is_open st ws)|];
    cbn [wsConnection readyState pendingMessage emit set_trace set_pendingMessage
         console_error]; auto.
Qed.

Lemma handle_bridge (c : ToolCall) (st : State) :
  wsConnection (snd (handle CLIENT_ID c st)) = wsConnection st
  /\ readyState (snd (handle CLIENT_ID c st)) = readyState st
  /\ (pendingMessage (snd (handle CLIENT_ID c st)) = pendingMessage st
      \/ exists m, pendingMessage (snd (handle CLIENT_ID c st)) = Some m
                   /\ m <> EmptyString).
Proof.
  destruct c; try (run_handler; auto; fail).
  - cbn [handle]. destruct (Js.truthy (accessToken st)) eqn:Htruthy.
    + destruct (accessToken st) as [[|c0 token]|] eqn:Htok; try discriminate.
      rewrite (render_model_authenticated args env st _ Htok) by discriminate.
      unfold render_flow. cbv zeta.
      pose proof (load_model_message_nonempty (base64url (fileVersionUrn args))
                    (String c0 token)) as Hm.
      revert Hm.
      generalize (load_model_message (base64url (fileVersionUrn args)) (String c0 token)).
      intros message Hm.
      change (wsConnection st) with (wsConnection (store_context args st)).
      change (readyState st) with (readyState (store_context args st)).
      change (pendingMessage st) with (pendingMessage (store_context args st)).
      destruct (viewerServerRunning st) eqn:Hr;
        change (viewerServerRunning st) with (viewerServerRunning (store_context args st)) in Hr;
        revert Hr; generalize (store_context args st); intros s Hr;
        unfold try_catch, render_catch, bind, settle, modify, ret, throw;
        cbn [negb].
      * rewrite startViewerServers_running by exact Hr. cbn [fst snd].
        destruct (sendToViewer_bridge message s) as (-> & -> & [-> | ->]);
          (split; [reflexivity|]); (split; [reflexivity|]); eauto.
      * unfold startViewerServers, bind, get, modify, ret, throw. rewrite Hr.
        destruct (start env) as [[|]|err]; destruct (openViewer env); cbn;
          (split; [reflexivity|]); (split; [reflexivity|]); eauto.
    + rewrite render_model_unauthenticated by exact Htruthy. auto.
  - cbn [handle]. unfold highlight_elements, bind, get, modify, ret.
    destruct (negb (viewerServerRunning st) || negb (bool_decide (is_Some (wsConnection st))));
      cbn [fst snd]; [auto|].
    destruct (sendToViewer_bridge (highlight_message externalIds) st) as (-> & -> & [-> | ->]);
      (split; [reflexivity|]); (split; [reflexivity|]);
      eauto using highlight_message_nonempty.
Qed.

Lemma step_bridge_consistent (ev : Event) (st : State) :
  bridge_consistent st -> bridge_consistent (step CLIENT_ID ev st).
Proof.
  intros [Hpending Hattached]. destruct ev as [c|ws|ws|ws].
  - destruct (handle_bridge c st) as (Hws & Hrs & Hp).
    pose proof (step_running_mono CLIENT_ID (Tool c) st) as Hmono.
    unfold step in *. split.
    + intros m Hm. destruct Hp as [Hp | (m' & Hp & Hne)].
      * apply Hpending. congruence.
      * congruence.
    + intros ws. rewrite Hws, Hrs. intros H. destruct (Hattached ws H) as [Hr Hst].
      split; [apply Hmono, Hr | exact Hst].
  - unfold step.
    destruct (viewerServerRunning st && bool_decide (readyState st !! ws = None)) eqn:Hacc;
      [|split; assumption].
    apply andb_prop in Hacc as [Hr Hfresh]. apply bool_decide_eq_true_1 in Hfresh.
    unfold on_connection. cbv zeta.
    cbn [pendingMessage set_wsConnection console_error emit set_trace set_readyState].
    destruct (pendingMessage st) as [[|c0 m]|] eqn:Hp; cbn [Js.truthy Js.truthy_string].
    + exfalso. now apply (Hpending EmptyString).
    + split; [discriminate|]. intros ws'.
      cbn [wsConnection viewerServerRunning readyState set_pendingMessage emit set_trace
           set_wsConnection console_error set_readyState].
      intros [= <-]. split; [exact Hr|]. left. apply lookup_insert_eq.
    + split; [cbn [pendingMessage set_wsConnection console_error emit set_trace
                   set_readyState]; congruence|].
      intros ws'.
      cbn [wsConnection viewerServerRunning readyState set_pendingMessage emit set_trace
           set_wsConnection console_error set_readyState].
      intros [= <-]. split; [exact Hr|]. left. apply lookup_insert_eq.
  - unfold step. destruct (is_open st ws) eqn:Hopen; [|split; assumption].
    split; [exact Hpending|]. intros ws'.
    cbn [wsConnection viewerServerRunning readyState set_readyState].
    intros H. destruct (Hattached ws' H) as [Hr Hst]. split; [exact Hr|].
    destruct (decide (ws' = ws)) as [->|Hne].
    + right. apply lookup_insert_eq.
    + rewrite lookup_insert_ne by congruence. exact Hst.
  - unfold step.
    assert (Hclose : bridge_consistent (on_close ws st)).
    { split.
      - intros m. rewrite on_close_pendingMessage. apply Hpending.
      - intros ws' H. destruct (decide (wsConnection st = Some ws)) as [Heq|Hne].
        + rewrite on_close_detaches in H by exact Heq. discriminate.
        + rewrite on_close_other in H by exact Hne.
          destruct (Hattached ws' H) as [Hr Hst].
          split; [unfold on_close; cbv zeta; case_decide; exact Hr|].
          rewrite on_close_readyState, lookup_insert_ne by congruence. exact Hst. }
    destruct (readyState st !! ws) as [[| | |]|]; try exact Hclose; split; assumption.
Qed.

(** X20: in every state the process reaches from its start, a pending message
    is a non-empty text and an attached socket belongs to a running bridge and is
    open or closing, never closed.  So the next tab that a running bridge accepts
    always receives the pending message. *)
Theorem reachable_bridge_is_consistent (evs : list Event) :
  bridge_consistent (run CLIENT_ID evs initial)
  /\ (forall ws m,
        pendingMessage (run CLIENT_ID evs initial) = Some m ->
        viewerServerRunning (run CLIENT_ID evs initial) = true ->
        readyState (run CLIENT_ID evs initial) !! ws = None ->
        sends (trace (step CLIENT_ID (Connection ws) (run CLIENT_ID evs initial)))
        = (sends (trace (run CLIENT_ID evs initial)) ++ [(ws, m)])%list
        /\ pendingMessage (step CLIENT_ID (Connection ws) (run CLIENT_ID evs initial)) = None).
Proof.
  assert (Hgen : forall st, bridge_consistent st ->
            bridge_consistent (run CLIENT_ID evs st)).
  { induction evs as [|ev evs IH]; intros st Hst; [exact Hst|].
    cbn [run fold_left]. apply IH, step_bridge_consistent, Hst. }
  assert (H : bridge_consistent (run CLIENT_ID evs initial)).
  { apply Hgen. split; [intros m | intros ws]; discriminate. }
  split; [exact H|].
  generalize dependent (run CLIENT_ID evs initial). intros st [Hpending _] ws m Hp Hr Hfresh.
  unfold step. rewrite Hr, bool_decide_eq_true_2 by exact Hfresh. cbn [andb].
  apply (on_connection_pending ws m st Hp), Hpending, Hp.
Qed.

End Reachable.

(** ** The further properties at sample inputs *)

Lemma nothing_happens_before_authentication_witness :
  dormant (run client_id
             [Tool (Authenticate no_consent); Tool (GetHubs (FetchRejects NonError));
              Connection 1; Tool (HighlightElements ["a"])]
             initial).
Proof.
  apply nothing_happens_before_authentication.
  cbn [no_successful_authenticate]. split; [vm_compute; discriminate|]. repeat split.
Defined.

Lemma get_model_context_before_render_witness :
  get_model_context
    (run client_id [Tool CheckAuth; Connection 1; Tool (HighlightElements [])] initial)
  = (Returns no_model_loaded,
     run client_id [Tool CheckAuth; Connection 1; Tool (HighlightElements [])] initial).
Proof. apply get_model_context_before_render. reflexivity. Defined.

Lemma model_context_is_never_cleared_witness :
  is_Some (currentElementGroupId
             (run client_id
                [Tool (RenderModel untitled port_taken); Close 1;
                 Tool (Authenticate no_consent)]
                (store_context tower signed_in)))
  /\ is_Some (currentFileVersionUrn
                (run client_id
                   [Tool (RenderModel untitled port_taken); Close 1;
                    Tool (Authenticate no_consent)]
                   (store_context tower signed_in))).
Proof.
  apply model_context_is_never_cleared. split; eexists; reflexivity.
Defined.

Lemma tokens_are_never_replaced_witness :
  accessToken (run client_id
                 [Tool (Authenticate consent); Tool (RenderModel tower viewer_opens);
                  Connection 1; Close 1]
                 signed_in) = Some "token"
  /\ refreshToken (run client_id
                     [Tool (Authenticate consent); Tool (RenderModel tower viewer_opens);
                      Connection 1; Close 1]
                     signed_in) = refreshToken signed_in.
Proof.
  apply (tokens_are_never_replaced client_id _ signed_in "token");
    [reflexivity | discriminate].
Defined.


Lemma data_tools_report_upstream_failures_witness :
  fst (handle client_id (GetProjects "hub" (FetchRejects (Error "socket hang up")))
         signed_in)
  = Returns (error_payload (message_or "Unknown error" (Error "socket hang up"))).
Proof.
  exact (data_tools_report_upstream_failures client_id
           (GetProjects "hub" (FetchRejects (Error "socket hang up")))
           (FetchRejects (Error "socket hang up")) signed_in "token"
           eq_refl eq_refl ltac:(discriminate)).
Defined.


Lemma execute_query_variables_witness :
  execute_query bad_variables (SyntaxError "Unexpected token o in JSON at position 1")
    (FetchRejects NonError) signed_in
  = (Returns (payload
                [("errors",
                  Some (Json.Array
                          [Json.obj [("message",
                                      Json.str "Unexpected token o in JSON at position 1")]]))]),
     signed_in)
  /\ snd (execute_query hubs_request (Value Json.Null) (FetchRejects NonError) signed_in)
     = emit (graphql_request "token" (query hubs_request) (Json.Object [])
               (region hubs_request))
         signed_in.
Proof.
  split.
  - exact (proj1 (execute_query_variables bad_variables
                    (SyntaxError "Unexpected token o in JSON at position 1")
                    (FetchRejects NonError) signed_in)
             _ eq_refl eq_refl).
  - exact (proj2 (execute_query_variables hubs_request (Value Json.Null)
                    (FetchRejects NonError) signed_in)
             "token" eq_refl eq_refl ltac:(discriminate)).
Defined.


Lemma authenticate_binds_verifier_to_challenge_witness :
  String.length (generateCodeVerifier 64 (randomValues consent)) = 64%nat
  /\ codeVerifier (snd (authenticate client_id consent initial))
     = Some (generateCodeVerifier 64 (randomValues consent))
  /\ exists rest,
       trace (snd (authenticate client_id consent initial))
       = (trace initial
          ++ [CallbackListen 5001;
              OpenUrl (authorize_url client_id
                         (generateCodeChallenge
                            (generateCodeVerifier 64 (randomValues consent))));
              CallbackClose;
              token_request client_id
                (generateCodeVerifier 64 (randomValues consent)) "auth-code"]
          ++ rest)%list.
Proof.
  exact (authenticate_binds_verifier_to_challenge client_id consent initial
           "auth-code" None eq_refl eq_refl eq_refl eq_refl eq_refl ltac:(discriminate)).
Defined.

Lemma check_auth_follows_the_session_witness :
  check_auth (run client_id [Tool (Authenticate no_consent)] initial)
  = (Returns (authenticated false), run client_id [Tool (Authenticate no_consent)] initial)
  /\ check_auth (snd (authenticate client_id consent
                        (run client_id [Tool (Authenticate no_consent)] initial)))
     = (Returns (authenticated true),
        snd (authenticate client_id consent
               (run client_id [Tool (Authenticate no_consent)] initial))).
Proof.
  assert (H : no_successful_authenticate client_id [Tool (Authenticate no_consent)] initial).
  { cbn [no_successful_authenticate]. split; [vm_compute; discriminate | exact I]. }
  split.
  - exact (proj1 (check_auth_follows_the_session client_id
                    [Tool (Authenticate no_consent)] consent no_consent
                    {| access_token := "token"; refresh_token := "refresh" |}) H).
  - exact (proj1 (proj2 (proj2 (proj2
             (proj2 (check_auth_follows_the_session client_id
                       [Tool (Authenticate no_consent)] consent no_consent
                       {| access_token := "token"; refresh_token := "refresh" |})
                H eq_refl eq_refl ltac:(discriminate)))))).
Defined.

Lemma render_model_first_load_witness :
  sends (trace (on_connection 1 (snd (render_model tower viewer_opens signed_in))))
  = (sends (trace signed_in)
     ++ [(1%nat, load_model_message (base64url (fileVersionUrn tower)) "token")])%list.
Proof.
  exact (proj1 (proj2 (proj2 (proj2 (proj2 (proj2 (proj2
           (render_model_first_load tower viewer_opens signed_in "token" true 1
              eq_refl ltac:(discriminate) eq_refl eq_refl eq_refl)))))))).
Defined.

Lemma render_model_later_load_witness :
  fst (render_model annex viewer_opens viewing) = Returns (model_sent annex)
  /\ opened (trace (snd (render_model annex viewer_opens viewing))) = opened (trace viewing).
Proof.
  pose proof (render_model_later_load annex viewer_opens viewing "token"
                ltac:(vm_compute; reflexivity) ltac:(discriminate)
                ltac:(vm_compute; reflexivity)) as H.
  split; [exact (proj1 H) | exact (proj1 (proj2 (proj2 H)))].
Defined.

Lemma render_model_first_load_failures_witness :
  fst (render_model tower port_taken signed_in)
  = Returns (error_payload
               (message_or "Failed to open viewer"
                  (Error "listen EADDRINUSE: address already in use :::8081"))).
Proof.
  exact (proj1 (proj1 (render_model_first_load_failures tower port_taken signed_in "token"
                         (Error "listen EADDRINUSE: address already in use :::8081")
                         eq_refl ltac:(discriminate) eq_refl)
                  eq_refl)).
Defined.

Lemma highlight_elements_attached_witness :
  fst (highlight_elements ["wall-1"; "wall-2"] viewing)
  = Returns (highlighted ["wall-1"; "wall-2"]).
Proof.
  exact (proj1 (highlight_elements_attached ["wall-1"; "wall-2"] viewing 1
                  ltac:(vm_compute; reflexivity) ltac:(vm_compute; reflexivity))).
Defined.

Lemma reachable_bridge_is_consistent_witness :
  sends (trace (step client_id (Connection 1)
                  (run client_id
                     [Tool (Authenticate consent); Tool (RenderModel tower viewer_opens)]
                     initial)))
  = (sends (trace (run client_id
                     [Tool (Authenticate consent); Tool (RenderModel tower viewer_opens)]
                     initial))
     ++ [(1%nat, load_model_message (base64url (fileVersionUrn tower)) "token")])%list.
Proof.
  exact (proj1 (proj2 (reachable_bridge_is_consistent client_id
                         [Tool (Authenticate consent); Tool (RenderModel tower viewer_opens)])
                  1%nat (load_model_message (base64url (fileVersionUrn tower)) "token")
                  ltac:(vm_compute; reflexivity) ltac:(vm_compute; reflexivity)
                  ltac:(vm_compute; reflexivity))).
Defined.
